(** * PyCPIO: the archive writer, the newc header codec and the entry store

    [pycpio/writer/writer.py] is embedded method by method: the
    constructor, [__bytes__], [compress] and [write] of [CPIOWriter], over a
    small monad of log records and file operations.  The header codec
    ([pycpio.header]) and the entry store that the writer serializes are not
    among the sources; they are embedded from the specification, and every
    such definition says so in its comment. *)

From Stdlib Require Import List String Ascii NArith ZArith Bool Lia.
From Stdlib.Strings Require Import Byte.
Import ListNotations.

Set Implicit Arguments.

(** ** Python values, as far as the writer's constructor looks at them *)

(** The constructor's [compression], [compression_level] and [xz_crc]
    arguments are dynamically typed: [None], a bool, an int or a str.
    Strings are 8-bit character strings. *)
Inductive pyval : Type :=
| PyNone
| PyBool (b : bool)
| PyInt (z : Z)
| PyStr (s : string).

(** Truth value testing: [None], [False], [0] and [""] are false. *)
Definition truthy (v : pyval) : bool :=
  match v with
  | PyNone => false
  | PyBool b => b
  | PyInt z => negb (z =? 0)%Z
  | PyStr s => negb (String.eqb s EmptyString)
  end.

(** [a or b]. *)
Definition py_or (a b : pyval) : pyval := if truthy a then a else b.

(** [isinstance(v, str)]. *)
Definition isinstance_str (v : pyval) : bool :=
  match v with PyStr _ => true | _ => false end.

(** [v == s] for a str literal [s]. *)
Definition py_eq_str (v : pyval) (s : string) : bool :=
  match v with PyStr t => String.eqb t s | _ => false end.

(** [v is True] and [v is False]: identity with the bool singletons. *)
Definition py_is_True (v : pyval) : bool :=
  match v with PyBool true => true | _ => false end.

Definition py_is_False (v : pyval) : bool :=
  match v with PyBool false => true | _ => false end.

Definition ascii_lower (c : ascii) : ascii :=
  let n := N_of_ascii c in
  if ((65 <=? n) && (n <=? 90))%N then ascii_of_N (n + 32) else c.

Definition ascii_upper (c : ascii) : ascii :=
  let n := N_of_ascii c in
  if ((97 <=? n) && (n <=? 122))%N then ascii_of_N (n - 32) else c.

(** [str.lower] and [str.upper]. *)
Fixpoint lower (s : string) : string :=
  match s with
  | EmptyString => EmptyString
  | String c r => String (ascii_lower c) (lower r)
  end.

Fixpoint upper (s : string) : string :=
  match s with
  | EmptyString => EmptyString
  | String c r => String (ascii_upper c) (upper r)
  end.

(** ** Bytes and fixed-width hexadecimal fields *)

Definition NUL : byte := x00.

Definition byte_of_N (n : N) : byte :=
  match Byte.of_N n with Some b => b | None => NUL end.

(** One hexadecimal digit, lower case as Python's [%x]. *)
Definition hex_digit (d : N) : byte :=
  if (d <? 10)%N then byte_of_N (48 + d) else byte_of_N (87 + d).

(** The value of a digit; both cases are read, as [int(s, 16)] does. *)
Definition hex_value (b : byte) : option N :=
  let n := Byte.to_N b in
  if ((48 <=? n) && (n <=? 57))%N then Some (n - 48)%N
  else if ((97 <=? n) && (n <=? 102))%N then Some (n - 87)%N
  else if ((65 <=? n) && (n <=? 70))%N then Some (n - 55)%N
  else None.

(** [w] digits, most significant first, zero padded. *)
Fixpoint to_hex (w : nat) (n : N) : list byte :=
  match w with
  | O => []
  | S w' => to_hex w' (n / 16)%N ++ [hex_digit (n mod 16)%N]
  end.

Definition hex_step (acc : option N) (b : byte) : option N :=
  match acc, hex_value b with
  | Some a, Some d => Some (16 * a + d)%N
  | _, _ => None
  end.

Definition of_hex (bs : list byte) : option N :=
  fold_left hex_step bs (Some 0%N).

(** Number of NUL bytes that bring a length to the next 4-byte boundary. *)
Definition pad4 (n : nat) : nat := (4 - n mod 4) mod 4.

Definition padding (n : nat) : list byte := repeat NUL (pad4 n).

Definition bytes_eqb (a b : list byte) : bool :=
  if list_eq_dec Byte.byte_eq_dec a b then true else false.

(** ** The header record (pycpio.header) *)

(** Modelled from the spec: the header structure [HEADER_NEW] of
    [pycpio.header], which is not among the sources.  The spec fixes the
    layout of the newc variant (13 numeric fields of 8 hexadecimal digits
    after a 6-byte magic); the structure carries the magic. *)
Record HeaderStructure : Type := { magic : list byte }.

Definition HEADER_NEW : HeaderStructure :=
  {| magic := list_byte_of_string "070701" |}.

(** Width of one numeric field, their number, and the size of the fixed
    part of a header: 6 + 13 * 8 = 110. *)
Definition FIELD_WIDTH : nat := 8.
Definition FIELD_COUNT : nat := 13.
Definition HEADER_SIZE : nat := 6 + FIELD_COUNT * FIELD_WIDTH.

(** Modelled from the spec: the HeaderRecord of section 3 ([CPIOHeader] of
    [pycpio.header]).  [namesize] is no stored field: the spec has the codec
    derive it from the name, and never keep a value that disagrees. *)
Record CPIOHeader : Type := {
  structure : HeaderStructure;
  ino : N;
  mode : N;
  uid : N;
  gid : N;
  nlink : N;
  mtime : N;
  filesize : N;
  devmajor : N;
  devminor : N;
  rdevmajor : N;
  rdevminor : N;
  check : N;
  name : string
}.

(** Modelled from the spec: [namesize], the length of the name including
    its terminating NUL. *)
Definition namesize (h : CPIOHeader) : N :=
  N.of_nat (String.length (name h) + 1).

(** Modelled from the spec: the 13 numeric fields in their order on the
    wire (section 6). *)
Definition numeric_fields (h : CPIOHeader) : list N :=
  [ino h; mode h; uid h; gid h; nlink h; mtime h; filesize h;
   devmajor h; devminor h; rdevmajor h; rdevminor h; namesize h; check h].

(** Modelled from the spec: construction of a header from keyword metadata
    ([CPIOHeader(structure=..., name=..., **fields)]).  A field that is not
    supplied is zero, the link count of a new record is 1, and the name size
    follows from the name. *)
Record HeaderFields : Type := {
  kw_ino : option N;
  kw_mode : option N;
  kw_uid : option N;
  kw_gid : option N;
  kw_nlink : option N;
  kw_mtime : option N;
  kw_filesize : option N;
  kw_devmajor : option N;
  kw_devminor : option N;
  kw_rdevmajor : option N;
  kw_rdevminor : option N;
  kw_check : option N
}.

Definition no_fields : HeaderFields :=
  {| kw_ino := None; kw_mode := None; kw_uid := None; kw_gid := None;
     kw_nlink := None; kw_mtime := None; kw_filesize := None;
     kw_devmajor := None; kw_devminor := None; kw_rdevmajor := None;
     kw_rdevminor := None; kw_check := None |}.

Definition or_default (d : N) (o : option N) : N :=
  match o with Some v => v | None => d end.

Definition CPIOHeader_new (st : HeaderStructure) (nm : string)
    (kw : HeaderFields) : CPIOHeader :=
  {| structure := st;
     ino := or_default 0%N (kw_ino kw);
     mode := or_default 0%N (kw_mode kw);
     uid := or_default 0%N (kw_uid kw);
     gid := or_default 0%N (kw_gid kw);
     nlink := or_default 1%N (kw_nlink kw);
     mtime := or_default 0%N (kw_mtime kw);
     filesize := or_default 0%N (kw_filesize kw);
     devmajor := or_default 0%N (kw_devmajor kw);
     devminor := or_default 0%N (kw_devminor kw);
     rdevmajor := or_default 0%N (kw_rdevmajor kw);
     rdevminor := or_default 0%N (kw_rdevminor kw);
     check := or_default 0%N (kw_check kw);
     name := nm |}.

(** Modelled from the spec: [HeaderCodec.encode] ([bytes(header)]): the
    magic, the 13 fields as 8 hexadecimal digits each, the name with its
    terminating NUL, and NUL bytes up to the next 4-byte boundary. *)
Definition CPIOHeader_bytes (h : CPIOHeader) : list byte :=
  magic (structure h)
  ++ List.concat (map (to_hex FIELD_WIDTH) (numeric_fields h))
  ++ list_byte_of_string (name h) ++ [NUL]
  ++ padding (HEADER_SIZE + N.to_nat (namesize h)).

(** ** Errors *)

(** The requests that [write] makes of the operating system, writer.py
    lines 92 to 97: [open], [f.write], [f.flush], [fsync], and the close of
    the file when the [with] block is left. *)
Inductive io_op : Type := OpOpen | OpWrite | OpFlush | OpFsync | OpClose.

(** Why [UnavailableCompression] is raised: an unsupported scheme
    (writer.py line 65) or a failed import (line 79). *)
Inductive unavailable : Type :=
| NotSupported (scheme : pyval)
| ImportFailed (compression_module : string).

Inductive exn : Type :=
| MalformedHeader
| MissingDeviceNumbers
| MissingSymlinkTarget
| UnavailableCompression (why : unavailable)
| AttributeError (attribute : string)
| OSError (op : io_op)
| CompressorError (code : Z).

(** ** Decoding a header *)

(** The first [n] bytes and the rest, when there are [n] bytes. *)
Definition take (n : nat) (bs : list byte) : option (list byte * list byte) :=
  if List.length bs <? n then None else Some (firstn n bs, skipn n bs).

Definition take_field (bs : list byte) : exn + (N * list byte) :=
  match take FIELD_WIDTH bs with
  | None => inl MalformedHeader
  | Some (digits, rest) =>
      match of_hex digits with
      | None => inl MalformedHeader
      | Some v => inr (v, rest)
      end
  end.

Fixpoint take_fields (k : nat) (bs : list byte) : exn + (list N * list byte) :=
  match k with
  | O => inr ([], bs)
  | S k' =>
      match take_field bs with
      | inl e => inl e
      | inr (v, rest) =>
          match take_fields k' rest with
          | inl e => inl e
          | inr (vs, rest') => inr (v :: vs, rest')
          end
      end
  end.

(** Modelled from the spec: [HeaderCodec.decode(bytes, offset)], which
    returns the record and the number of bytes consumed (fixed part, name
    and padding), and fails with [MalformedHeader] on a wrong magic, on a
    field that is no hexadecimal string, and on a truncated input. *)
Definition decode (st : HeaderStructure) (bs : list byte) (offset : nat)
  : exn + (CPIOHeader * nat) :=
  let input := skipn offset bs in
  match take 6 input with
  | None => inl MalformedHeader
  | Some (m, after_magic) =>
      if negb (bytes_eqb m (magic st)) then inl MalformedHeader
      else
        match take_fields FIELD_COUNT after_magic with
        | inl e => inl e
        | inr ([f_ino; f_mode; f_uid; f_gid; f_nlink; f_mtime; f_filesize;
                f_devmajor; f_devminor; f_rdevmajor; f_rdevminor;
                f_namesize; f_check], after_fields) =>
            let nsz := N.to_nat f_namesize in
            let used := HEADER_SIZE + nsz + pad4 (HEADER_SIZE + nsz) in
            if List.length input <? used then inl MalformedHeader
            else
              inr ({| structure := st;
                      ino := f_ino; mode := f_mode; uid := f_uid;
                      gid := f_gid; nlink := f_nlink; mtime := f_mtime;
                      filesize := f_filesize;
                      devmajor := f_devmajor; devminor := f_devminor;
                      rdevmajor := f_rdevmajor; rdevminor := f_rdevminor;
                      check := f_check;
                      name := string_of_list_byte
                                (firstn (nsz - 1) after_fields) |},
                   used)
        | inr _ => inl MalformedHeader
        end
  end.

(** ** File types *)

(** Modelled from the spec: the file type of an entry, which the upper
    bits of [mode] hold (mask [S_IFMT]); the lower 12 bits are the
    permissions.  The values are those of POSIX. *)
Definition S_IFMT : N := 0xF000.
Definition S_IFSOCK : N := 0xC000.
Definition S_IFLNK : N := 0xA000.
Definition S_IFREG : N := 0x8000.
Definition S_IFBLK : N := 0x6000.
Definition S_IFDIR : N := 0x4000.
Definition S_IFCHR : N := 0x2000.
Definition S_IFIFO : N := 0x1000.

Definition file_type (m : N) : N := N.land m S_IFMT.

Definition is_device (m : N) : bool :=
  (file_type m =? S_IFCHR)%N || (file_type m =? S_IFBLK)%N.

Definition is_symlink (m : N) : bool := (file_type m =? S_IFLNK)%N.

(** Modelled from the spec: directories and symbolic links are never
    subject to content deduplication. *)
Definition dedup_eligible (m : N) : bool :=
  negb ((file_type m =? S_IFDIR)%N || (file_type m =? S_IFLNK)%N).

(** The name of the trailer, writer.py line 49. *)
Definition TRAILER_NAME : string := "TRAILER!!!".

(** Python's dict assignment [d[k] = v]: an existing key keeps its place. *)
Fixpoint dict_set {V : Type} (k : string) (v : V) (d : list (string * V))
  : list (string * V) :=
  match d with
  | [] => [(k, v)]
  | (k', v') :: r =>
      if String.eqb k k' then (k, v) :: r else (k', v') :: dict_set k v r
  end.

(** [module, func = compression_module.rsplit(".", 1)]; [None] when the
    name holds no dot. *)
Fixpoint rsplit_dot (s : string) : option (string * string) :=
  match s with
  | EmptyString => None
  | String c r =>
      match rsplit_dot r with
      | Some (m, f) => Some (String c m, f)
      | None => if Ascii.eqb c "."%char then Some (EmptyString, r) else None
      end
  end.

(** [lzma.CHECK_CRC32]. *)
Definition CHECK_CRC32 : Z := 1.


(** The bytes that the names of [paths] take besides their characters: the
    terminating NUL and the alignment of header and name. *)
Definition name_padding (paths : list string) : nat :=
  list_sum
    (map (fun p => 1 + pad4 (HEADER_SIZE + (String.length p + 1))) paths).

Definition total_name_length (paths : list string) : nat :=
  list_sum (map String.length paths).

(** ** Entries and the entry store *)

(** Modelled from the spec: the ArchiveEntry of section 3 (a [CPIOData]
    object): a header, the content bytes, and the digest computed over the
    content the entry was built from. *)
Record CPIOData : Type := {
  header : CPIOHeader;
  data : list byte;
  hash : N
}.

(** Modelled from the spec: the bytes of an entry, its encoded header
    followed by the content padded to a 4-byte boundary. *)
Definition CPIOData_bytes (e : CPIOData) : list byte :=
  CPIOHeader_bytes (header e) ++ data e ++ padding (List.length (data e)).

(** The layout of one record of the newc format, for the header [h] and
    the content [d]: the magic; 13 fields of 8 bytes, which read back as
    the fields of [h] when these fit 32 bits; the name; [j] NUL bytes, at
    least the one that terminates the name and no more than end it on a
    4-byte boundary of the record; the content; and [k] NUL bytes, no more
    than end the content on a 4-byte boundary.  With a magic of 6 bytes,
    [decode] reads [h] back from the record, wherever it stands, and
    consumes it up to the content. *)
Definition laid_out (h : CPIOHeader) (d r : list byte) : Prop :=
  exists (fields : list byte) (j k : nat),
    r = magic (structure h) ++ fields ++ list_byte_of_string (name h)
        ++ repeat NUL j ++ d ++ repeat NUL k
    /\ List.length fields = FIELD_COUNT * FIELD_WIDTH
    /\ (Forall (fun v => (v < 2 ^ 32)%N) (numeric_fields h) ->
        forall rest,
          take_fields FIELD_COUNT (fields ++ rest)
          = inr (numeric_fields h, rest))
    /\ 1 <= j <= 4
    /\ (HEADER_SIZE + String.length (name h) + j) mod 4 = 0
    /\ k < 4
    /\ (List.length d + k) mod 4 = 0
    /\ (List.length (magic (structure h)) = 6 ->
        Forall (fun v => (v < 2 ^ 32)%N) (numeric_fields h) ->
        forall pre rest,
          decode (structure h) (pre ++ r ++ rest) (List.length pre)
          = inr (h, HEADER_SIZE + String.length (name h) + j)).

(** Modelled from the spec: the EntryStore of section 3 ([CPIOArchive]):
    the path to entry mapping in insertion order, and the counter that
    hands out inode numbers.  The digest index of the spec is read off the
    digests that the entries carry. *)
Record CPIOArchive : Type := {
  entries : list (string * CPIOData);
  next_inode : N
}.

(** Modelled from the spec: a fresh store; inode numbers start at 1. *)
Definition empty_archive : CPIOArchive := {| entries := []; next_inode := 1 |}.

(** Modelled from the spec: [list()], the paths in insertion order. *)
Definition CPIOArchive_list (a : CPIOArchive) : list string :=
  map fst (entries a).


(** Modelled from the spec: [bytes(entries)], every entry in store order;
    the trailer is not part of it. *)
Definition CPIOArchive_bytes (a : CPIOArchive) : list byte :=
  List.concat (map (fun pe => CPIOData_bytes (snd pe)) (entries a)).

(** Modelled from the spec: an entry with its link count replaced. *)
Definition set_nlink (n : N) (e : CPIOData) : CPIOData :=
  let h := header e in
  {| header := {| structure := structure h; ino := ino h; mode := mode h;
                  uid := uid h; gid := gid h; nlink := n; mtime := mtime h;
                  filesize := filesize h; devmajor := devmajor h;
                  devminor := devminor h; rdevmajor := rdevmajor h;
                  rdevminor := rdevminor h; check := check h;
                  name := name h |};
     data := data e;
     hash := hash e |}.

(** Modelled from the spec: the header fields that the producer supplies
    with a path (section 6): device numbers where they apply, and the
    target of a symbolic link. *)
Record AppendFields : Type := {
  a_mode : N;
  a_uid : N;
  a_gid : N;
  a_mtime : N;
  a_devmajor : N;
  a_devminor : N;
  a_rdevmajor : option N;
  a_rdevminor : option N;
  a_target : option (list byte)
}.

(** Modelled from the spec: what [append] refuses, a device without
    device numbers and a symbolic link without a target. *)
Definition refused (f : AppendFields) : option exn :=
  match is_device (a_mode f), a_rdevmajor f, a_rdevminor f with
  | true, None, _ | true, _, None => Some MissingDeviceNumbers
  | _, _, _ =>
      match is_symlink (a_mode f), a_target f with
      | true, None => Some MissingSymlinkTarget
      | _, _ => None
      end
  end.

(** Modelled from the spec: the content of the new entry, which is the
    target for a symbolic link. *)
Definition payload (f : AppendFields) (content : list byte) : list byte :=
  match is_symlink (a_mode f), a_target f with
  | true, Some target => target
  | _, _ => content
  end.

(** Modelled from the spec: the entry that [append] builds for [path],
    with inode [i], link count [n], the content [stored] and the digest
    [h].  The name size follows from the path, the file size from the
    content, and the device numbers of the entry itself are kept for
    devices only. *)
Definition new_entry (path : string) (f : AppendFields) (i n : N)
    (stored : list byte) (h : N) : CPIOData :=
  {| header := {| structure := HEADER_NEW; ino := i; mode := a_mode f;
                  uid := a_uid f; gid := a_gid f; nlink := n;
                  mtime := a_mtime f;
                  filesize := N.of_nat (List.length stored);
                  devmajor := a_devmajor f; devminor := a_devminor f;
                  rdevmajor := if is_device (a_mode f)
                               then or_default 0%N (a_rdevmajor f)
                               else 0%N;
                  rdevminor := if is_device (a_mode f)
                               then or_default 0%N (a_rdevminor f)
                               else 0%N;
                  check := 0%N;
                  name := path |};
     data := stored;
     hash := h |}.

(** Modelled from the spec: every entry of inode [i] gets the link count
    [n]. *)
Definition relink (i n : N) (es : list (string * CPIOData))
  : list (string * CPIOData) :=
  map (fun pe => if (ino (header (snd pe)) =? i)%N
                 then (fst pe, set_nlink n (snd pe)) else pe) es.

(** ** Instances for the examples *)

(** A digest without collisions: the bytes read as a number in base 256
    after a leading 1. *)
Definition ideal_digest (bs : list byte) : N :=
  fold_left (fun acc b => (acc * 256 + Byte.to_N b)%N) bs 1%N.

(** An operating system that refuses nothing. *)
Definition no_faults (op : io_op) : bool := false.

(** An installation without third-party modules. *)
Definition nothing_installed (module : string) : bool := false.

(** A stand-in for the compressors: it puts one byte before the data. *)
Definition sample_compressor (module func : string) (d : list byte)
    (args : list pyval) (kwargs : list (string * pyval))
  : exn + list byte :=
  inr (x01 :: d).

(** An installation with the zstandard module. *)
Definition zstandard_installed (module : string) : bool :=
  String.eqb module "zstandard".

(** An operating system that accepts the write into the buffer and refuses
    when the file is closed. *)
Definition close_refused (op : io_op) : bool :=
  match op with OpClose => true | _ => false end.

(** A regular file with permissions 0644, and a symbolic link. *)
Definition regular_file : AppendFields :=
  {| a_mode := S_IFREG + 420; a_uid := 0; a_gid := 0; a_mtime := 5;
     a_devmajor := 0; a_devminor := 0;
     a_rdevmajor := None; a_rdevminor := None; a_target := None |}.

Definition symlink_to (target : list byte) : AppendFields :=
  {| a_mode := S_IFLNK + 511; a_uid := 0; a_gid := 0; a_mtime := 5;
     a_devmajor := 0; a_devminor := 0;
     a_rdevmajor := None; a_rdevminor := None; a_target := Some target |}.

(** Three regular files, and eleven links to one target. *)
Definition three_files : list (string * AppendFields) :=
  [("etc/a"%string, regular_file); ("etc/b"%string, regular_file);
   ("etc/c"%string, regular_file)].

Definition eleven_links : list (string * AppendFields) :=
  map (fun p => (p, symlink_to (list_byte_of_string "/bin/busybox")))
      ["bin/ash"; "bin/cat"; "bin/cp"; "bin/dd"; "bin/df"; "bin/ln";
       "bin/ls"; "bin/mv"; "bin/ps"; "bin/rm"; "bin/sh"]%string.

(** The store that [append] builds from three regular files with the
    content "test": the first entry holds the content, the others are its
    hard links. *)
Definition test_content : list byte := list_byte_of_string "test".

Definition linked_files : CPIOArchive :=
  {| entries :=
       [("etc/a"%string,
         new_entry "etc/a" regular_file 1 3 test_content
           (ideal_digest test_content));
        ("etc/b"%string,
         new_entry "etc/b" regular_file 1 3 [] (ideal_digest test_content));
        ("etc/c"%string,
         new_entry "etc/c" regular_file 1 3 [] (ideal_digest test_content))];
     next_inode := 2 |}.

(** ** The command line program (pycpio/main.py) *)

(** The parsed arguments of [main], lines 10 to 28: an option that takes a
    value is [None] when it is not given, a flag is a bool. *)
Record Args : Type := {
  arg_input : option string;
  arg_append : option string;
  arg_recursive : bool;
  arg_relative : option string;
  arg_absolute : bool;
  arg_rm : option string;
  arg_name : option string;
  arg_symlink : option string;
  arg_chardev : option string;
  arg_major : option Z;
  arg_minor : option Z;
  arg_uid : option Z;
  arg_gid : option Z;
  arg_mode : option Z;
  arg_output : option string;
  arg_list : bool;
  arg_print : bool
}.

(** The value of an option as a Python value, and its text or number. *)
Definition py_text (o : option string) : pyval :=
  match o with Some s => PyStr s | None => PyNone end.

Definition py_number (o : option Z) : pyval :=
  match o with Some z => PyInt z | None => PyNone end.

Definition text (o : option string) : string :=
  match o with Some s => s | None => EmptyString end.

Definition number (o : option Z) : Z :=
  match o with Some z => z | None => 0%Z end.

(** The keyword arguments that [main] builds for the append methods, lines
    49 to 56: [name] and [absolute] are keys only when they are set. *)
Record CmdArgs : Type := {
  cmd_relative : option string;
  cmd_path : string;
  cmd_name : option string;
  cmd_absolute : option bool
}.

(** The methods of [PyCPIO] that [main] calls; [PyCPIO_init] is the
    construction from the arguments, [to_str] the conversion that [print(c)]
    asks for. *)
Inductive method : Type :=
| PyCPIO_init (args : Args)
| read_cpio_file (path : string)
| remove_cpio (name : string)
| add_symlink (name target : string)
| add_chardev (name : string) (major minor : Z)
| append_recursive (cmdargs : CmdArgs)
| append_cpio (cmdargs : CmdArgs)
| write_cpio_file (path : string)
| list_files
| to_str.

(** What [main] does, oldest first: it calls methods and prints what two
    of them return. *)
Inductive effect : Type :=
| Called (m : method)
| Printed (m : method).

Inductive main_exn : Type :=
| ValueError (message : string)
| MethodRaised (m : method).

Definition Run : Type := list effect -> (main_exn + unit) * list effect.

Definition skip : Run := fun t => (inr tt, t).

Definition throw (e : main_exn) : Run := fun t => (inl e, t).

(** A method call; [raises] says which calls raise. *)
Definition invoke (raises : method -> bool) (m : method) : Run :=
  fun t =>
    if raises m then (inl (MethodRaised m), t ++ [Called m])
    else (inr tt, t ++ [Called m]).

Definition print (m : method) : Run := fun t => (inr tt, t ++ [Printed m]).

(** Statements one after the other; the first that raises ends them. *)
Fixpoint sequence (statements : list Run) : Run :=
  match statements with
  | [] => skip
  | s :: rest =>
      fun t =>
        match s t with
        | (inl e, t') => (inl e, t')
        | (inr _, t') => sequence rest t'
        end
  end.

(** [if condition: statement]. *)
Definition when (condition : bool) (statement : Run) : Run :=
  if condition then statement else skip.

(** [main], lines 31 to 70, on the parsed arguments. *)
Definition main (raises : method -> bool) (args : Args) : Run :=
  sequence
    [ invoke raises (PyCPIO_init args);
      when (truthy (py_text (arg_input args)))
        (invoke raises (read_cpio_file (text (arg_input args))));
      when (truthy (py_text (arg_rm args)))
        (invoke raises (remove_cpio (text (arg_rm args))));
      when (truthy (py_text (arg_symlink args)))
        (if negb (truthy (py_text (arg_name args)))
         then throw (ValueError "Symlink requires a name")
         else invoke raises
                (add_symlink (text (arg_name args))
                   (text (arg_symlink args))));
      when (truthy (py_text (arg_chardev args)))
        (if negb (truthy (py_number (arg_major args)))
            || negb (truthy (py_number (arg_minor args)))
         then throw (ValueError
                      "Character device requires major and minor numbers")
         else invoke raises
                (add_chardev (text (arg_chardev args))
                   (number (arg_major args)) (number (arg_minor args))));
      when (truthy (py_text (arg_append args)))
        (let relative :=
           if truthy (py_text (arg_relative args))
           then arg_relative args else None in
         let cmdargs :=
           {| cmd_relative := relative;
              cmd_path := text (arg_append args);
              cmd_name := if truthy (py_text (arg_name args))
                          then arg_name args else None;
              cmd_absolute := if arg_absolute args
                              then Some true else None |} in
         if arg_recursive args
         then invoke raises (append_recursive cmdargs)
         else invoke raises (append_cpio cmdargs));
      when (truthy (py_text (arg_output args)))
        (invoke raises (write_cpio_file (text (arg_output args))));
      when (arg_list args)
        (sequence [invoke raises list_files; print list_files]);
      when (arg_print args)
        (sequence [invoke raises to_str; print to_str]) ].

(** The stage of the program that an effect belongs to: construction,
    reading, changing the archive, writing, showing. *)
Definition stage (e : effect) : nat :=
  match e with
  | Called (PyCPIO_init _) => 0
  | Called (read_cpio_file _) => 1
  | Called (remove_cpio _) | Called (add_symlink _ _)
  | Called (add_chardev _ _ _) | Called (append_recursive _)
  | Called (append_cpio _) => 2
  | Called (write_cpio_file _) => 3
  | Called list_files | Called to_str | Printed _ => 4
  end.

Fixpoint nondecreasing (l : list nat) : bool :=
  match l with
  | a :: ((b :: _) as r) => (a <=? b) && nondecreasing r
  | _ => true
  end.

Definition is_write (e : effect) : bool :=
  match e with Called (write_cpio_file _) => true | _ => false end.

Definition is_print (e : effect) : bool :=
  match e with Printed _ => true | _ => false end.

(** Arguments for the examples: nothing but what each example sets. *)
Definition no_args : Args :=
  {| arg_input := None; arg_append := None; arg_recursive := false;
     arg_relative := None; arg_absolute := false; arg_rm := None;
     arg_name := None; arg_symlink := None; arg_chardev := None;
     arg_major := None; arg_minor := None; arg_uid := None;
     arg_gid := None; arg_mode := None; arg_output := None;
     arg_list := false; arg_print := false |}.

Definition never_raises (m : method) : bool := false.

Definition is_append (e : effect) : bool :=
  match e with
  | Called (append_recursive _) | Called (append_cpio _) => true
  | _ => false
  end.

(** [-i in.cpio -c dev/tty --major 5 --minor 0 -o out.cpio]. *)
Definition tty_args : Args :=
  {| arg_input := Some "in.cpio"%string; arg_append := None;
     arg_recursive := false; arg_relative := None; arg_absolute := false;
     arg_rm := None; arg_name := None; arg_symlink := None;
     arg_chardev := Some "dev/tty"%string;
     arg_major := Some 5%Z; arg_minor := Some 0%Z; arg_uid := None;
     arg_gid := None; arg_mode := None;
     arg_output := Some "out.cpio"%string;
     arg_list := false; arg_print := false |}.

(** [-i in.cpio --rm etc/a -s /bin/busybox -o out.cpio]. *)
Definition unnamed_symlink_args : Args :=
  {| arg_input := Some "in.cpio"%string; arg_append := None;
     arg_recursive := false; arg_relative := None; arg_absolute := false;
     arg_rm := Some "etc/a"%string; arg_name := None;
     arg_symlink := Some "/bin/busybox"%string;
     arg_chardev := None; arg_major := None; arg_minor := None;
     arg_uid := None; arg_gid := None; arg_mode := None;
     arg_output := Some "out.cpio"%string;
     arg_list := false; arg_print := false |}.

(** [--recursive --relative /tmp --absolute -n x --major 1 --minor 3]. *)
Definition qualifiers_only_args : Args :=
  {| arg_input := None; arg_append := None;
     arg_recursive := true; arg_relative := Some "/tmp"%string;
     arg_absolute := true; arg_rm := None; arg_name := Some "x"%string;
     arg_symlink := None; arg_chardev := None;
     arg_major := Some 1%Z; arg_minor := Some 3%Z; arg_uid := None;
     arg_gid := None; arg_mode := None; arg_output := None;
     arg_list := false; arg_print := false |}.

(** [-a /etc/passwd -n passwd --relative "" -o out.cpio -l]. *)
Definition append_args : Args :=
  {| arg_input := None; arg_append := Some "/etc/passwd"%string;
     arg_recursive := false; arg_relative := Some EmptyString;
     arg_absolute := false; arg_rm := None;
     arg_name := Some "passwd"%string;
     arg_symlink := None; arg_chardev := None;
     arg_major := None; arg_minor := None; arg_uid := None;
     arg_gid := None; arg_mode := None;
     arg_output := Some "out.cpio"%string;
     arg_list := true; arg_print := false |}.

(** An archive that cannot be read. *)
Definition read_raises (m : method) : bool :=
  match m with read_cpio_file _ => true | _ => false end.

Section Model.

(** The 256-bit content digest ([hashlib.sha256]). *)
Variable sha256 : list byte -> N.

(** Modelled from the spec: the existing entry, at another path, that a
    new entry of digest [h] and mode [m] is a duplicate of: same digest,
    same file type. *)
Definition find_duplicate (a : CPIOArchive) (path : string) (h : N) (m : N)
  : option (string * CPIOData) :=
  find (fun pe => negb (String.eqb (fst pe) path)
                  && (hash (snd pe) =? h)%N
                  && (file_type (mode (header (snd pe))) =? file_type m)%N)
       (entries a).

(** Modelled from the spec: [append(path, header_fields, content)] of
    section 4.2.  A device without device numbers and a symbolic link
    without a target are refused.  A symbolic link stores its target as its
    content.  An entry whose digest and file type an existing entry has
    takes that entry's inode and stores no content, and every entry of that
    inode gets the incremented link count; otherwise the entry gets the next
    inode.  Directories and symbolic links are never deduplicated. *)
Definition append (a : CPIOArchive) (path : string) (f : AppendFields)
    (content : list byte) : exn + (CPIOArchive * CPIOData) :=
  match refused f with
  | Some e => inl e
  | None =>
      let stored := payload f content in
      let h := sha256 stored in
      match (if dedup_eligible (a_mode f)
             then find_duplicate a path h (a_mode f) else None) with
      | Some (_, first) =>
          let i := ino (header first) in
          let n := (nlink (header first) + 1)%N in
          let e := new_entry path f i n [] h in
          inr ({| entries := dict_set path e (relink i n (entries a));
                  next_inode := next_inode a |}, e)
      | None =>
          let e := new_entry path f (next_inode a) 1%N stored h in
          inr ({| entries := dict_set path e (entries a);
                  next_inode := (next_inode a + 1)%N |}, e)
      end
  end.

(** Modelled from the spec: [append_many(iterable)], one [append] after
    the other; the first failure ends it. *)
Fixpoint append_many (a : CPIOArchive)
    (items : list (string * AppendFields * list byte)) : exn + CPIOArchive :=
  match items with
  | [] => inr a
  | (path, f, content) :: rest =>
      match append a path f content with
      | inl e => inl e
      | inr (a', _) => append_many a' rest
      end
  end.

(** The store holds the paths [done], one entry of them has the digest of
    [c] and the file type of [m0], the content [c] is stored once, and the
    bytes of the store are the headers, the names with their padding, and
    [c] with its padding. *)
Definition holds_once (c : list byte) (m0 : N) (done : list string)
    (a : CPIOArchive) : Prop :=
  map fst (entries a) = done
  /\ (exists pe, In pe (entries a)
                 /\ hash (snd pe) = sha256 c
                 /\ file_type (mode (header (snd pe))) = file_type m0)
  /\ List.length (CPIOArchive_bytes a)
     = List.length done * HEADER_SIZE + total_name_length done
       + name_padding done + (List.length c + pad4 (List.length c))
  /\ List.concat (map (fun pe => data (snd pe)) (entries a)) = c.




(** ** The world of the writer: log records and file operations *)

Inductive level : Type := DEBUG | INFO | WARNING.

Inductive message : Type :=
| MsgWritingTo (path : string)
| MsgBuildingTrailer (trailer : CPIOHeader)
| MsgNoCompression
| MsgCompressingWith (compression_module : string)
| MsgCompressing (scheme : string) (size : nat)
| MsgNotFsynced (path : string)
| MsgWrote (size : nat) (path : string).

(** What a call leaves behind, oldest first: log records, and the
    operations on the output file that the operating system carried out. *)
Inductive event : Type :=
| Log (l : level) (m : message)
| Opened (path : string)
| Written (path : string) (d : list byte)
| Flushed (path : string)
| Fsynced (path : string)
| Closed (path : string).

(** A computation appends to the events so far and returns a value or
    raises. *)
Definition M (A : Type) : Type := list event -> (exn + A) * list event.

Definition ret {A : Type} (x : A) : M A := fun t => (inr x, t).

Definition raise {A : Type} (e : exn) : M A := fun t => (inl e, t).

Definition bind {A B : Type} (m : M A) (k : A -> M B) : M B :=
  fun t =>
    match m t with
    | (inl e, t') => (inl e, t')
    | (inr x, t') => k x t'
    end.

Definition lift {A : Type} (r : exn + A) : M A := fun t => (r, t).

Definition emit (e : event) : M unit := fun t => (inr tt, t ++ [e]).

Definition log (l : level) (m : message) : M unit := emit (Log l m).

Notation "x <- m ;; k" := (bind m (fun x => k))
  (at level 61, m at next level, right associativity).
Notation "m ;; k" := (bind m (fun _ => k))
  (at level 61, right associativity).

(** Which requests raise [OSError].  [f.write] hands the data to a buffered
    file object: a device that takes no more data makes [f.write] raise
    when the buffer is written through, and [f.flush] or the close
    otherwise; each of these is a request of its own here. *)
Variable io_fails : io_op -> bool.

Definition io (op : io_op) (e : event) : M unit :=
  if io_fails op then raise (OSError op) else emit e.

(** [with open(path, "wb") as f: body]: nothing is opened when [open]
    raises.  Otherwise the file is closed when the body returns and when it
    raises.  The close flushes what [f.write] has left in the buffer of the
    file object, so it can raise [OSError] itself: after a body that
    returned, and after a body that raised, whose exception it then
    replaces.  The handle is released in both cases. *)
Definition with_open (path : string) (body : M unit) : M unit :=
  fun t =>
    if io_fails OpOpen then (inl (OSError OpOpen), t)
    else
      let (r, t') := body (t ++ [Opened path]) in
      if io_fails OpClose then (inl (OSError OpClose), t' ++ [Closed path])
      else (r, t' ++ [Closed path]).

(** ** CPIOWriter (pycpio/writer/writer.py) *)

(** Third-party modules that can be imported ([zstandard]); [lzma] is
    imported by writer.py itself, line 1. *)
Variable installed : string -> bool.

Definition import_ok (module : string) : bool :=
  String.eqb module "lzma" || installed module.

(** [getattr(__import__(module), func)(data, *args, **kwargs)]. *)
Variable external_call :
  string -> string -> list byte -> list pyval -> list (string * pyval)
  -> exn + list byte.

Record CPIOWriter : Type := {
  cpio_entries : CPIOArchive;
  output_file : string;
  self_structure : HeaderStructure;
  compression : pyval;
  compression_level : pyval;
  xz_crc : pyval
}.

(** The defaults of [__init__]'s keyword parameters. *)
Definition default_compression : pyval := PyBool false.
Definition default_compression_level : pyval := PyInt 10.
Definition default_xz_crc : pyval := PyInt CHECK_CRC32.

Definition keyword (default : pyval) (argument : option pyval) : pyval :=
  match argument with Some v => v | None => default end.

(** [CPIOWriter.__init__], lines 18 to 44.  A keyword argument that the
    caller leaves out is [None] here and takes its default. *)
Definition CPIOWriter_init (entries0 : CPIOArchive) (output : string)
    (structure0 : option HeaderStructure)
    (compression0 compression_level0 xz_crc0 : option pyval) : CPIOWriter :=
  let compression1 := keyword default_compression compression0 in
  let compression_level1 :=
    keyword default_compression_level compression_level0 in
  {| cpio_entries := entries0;
     output_file := output;
     self_structure :=
       match structure0 with Some st => st | None => HEADER_NEW end;
     compression :=
       match compression1 with
       | PyStr s =>
           let s' := lower s in
           if String.eqb s' "true" then PyBool true
           else if String.eqb s' "false" then PyBool false
           else PyStr s'
       | _ => py_or compression1 (PyBool false)
       end;
     compression_level := py_or compression_level1 (PyInt 10);
     xz_crc := keyword default_xz_crc xz_crc0 |}.

(** The trailer that [__bytes__] builds, line 49. *)
Definition trailer (st : HeaderStructure) : CPIOHeader :=
  CPIOHeader_new st TRAILER_NAME no_fields.

(** [CPIOWriter.__bytes__], lines 46 to 52. *)
Definition CPIOWriter_bytes (self : CPIOWriter) : M (list byte) :=
  let cpio_bytes := CPIOArchive_bytes (cpio_entries self) in
  let trailer := trailer (self_structure self) in
  log DEBUG (MsgBuildingTrailer trailer) ;;
  ret (cpio_bytes ++ CPIOHeader_bytes trailer).

(** [self.compression.upper()]: a bool has no such attribute. *)
Definition py_upper (v : pyval) : exn + string :=
  match v with
  | PyStr s => inr (upper s)
  | _ => inl (AttributeError "upper")
  end.

(** Lines 70 to 86 of [compress]: import the module, log, and call the
    compressor. *)
Definition run_compressor (self : CPIOWriter) (compression_module : string)
    (compression_args : list pyval)
    (compression_kwargs : list (string * pyval)) (d : list byte)
  : M (list byte) :=
  let (module, func) :=
    match rsplit_dot compression_module with
    | Some p => p
    | None => (compression_module, "compress"%string)
    end in
  if negb (import_ok module)
  then raise (UnavailableCompression (ImportFailed compression_module))
  else
    log DEBUG (MsgCompressingWith compression_module) ;;
    scheme <- lift (py_upper (compression self)) ;;
    log INFO (MsgCompressing scheme (List.length d)) ;;
    lift (external_call module func d compression_args compression_kwargs).

(** [CPIOWriter.compress], lines 54 to 86. *)
Definition compress (self : CPIOWriter) (d : list byte) : M (list byte) :=
  if py_eq_str (compression self) "xz" || py_is_True (compression self)
  then run_compressor self "lzma.compress" [] [("check"%string, xz_crc self)] d
  else if py_eq_str (compression self) "zstd"
  then run_compressor self "zstandard.compress" [compression_level self] [] d
  else if negb (py_is_False (compression self))
  then raise (UnavailableCompression (NotSupported (compression self)))
  else log INFO MsgNoCompression ;; ret d.

(** [CPIOWriter.write], lines 88 to 101. *)
Definition write (self : CPIOWriter) (safe_write : bool) : M unit :=
  log DEBUG (MsgWritingTo (output_file self)) ;;
  cpio_bytes <- CPIOWriter_bytes self ;;
  d <- compress self cpio_bytes ;;
  with_open (output_file self)
    (io OpWrite (Written (output_file self) d) ;;
     if safe_write
     then io OpFlush (Flushed (output_file self)) ;;
          io OpFsync (Fsynced (output_file self))
     else log WARNING (MsgNotFsynced (output_file self))) ;;
  log INFO (MsgWrote (List.length d) (output_file self)).

(** The file operations among the events. *)
Definition is_file_event (e : event) : bool :=
  match e with Log _ _ => false | _ => true end.

Definition file_events (t : list event) : list event :=
  filter is_file_event t.

(** The number of handles that are open after the events [t]. *)
Definition open_handles (t : list event) : nat :=
  fold_left (fun n e => match e with
                        | Opened _ => S n
                        | Closed _ => Nat.pred n
                        | _ => n
                        end) t 0.

(** The schemes that [compress] has a branch for. *)
Definition supported_scheme (c : pyval) : bool :=
  py_eq_str c "xz" || py_is_True c || py_eq_str c "zstd" || py_is_False c.

(** * Properties *)

(** ** The monad of the writer *)

Lemma bind_ret_l {A B : Type} (x : A) (k : A -> M B) (t : list event) :
  bind (ret x) k t = k x t.
Proof. reflexivity. Qed.

Lemma bind_emit {B : Type} (e : event) (k : unit -> M B) (t : list event) :
  bind (emit e) k t = k tt (t ++ [e]).
Proof. reflexivity. Qed.

Lemma bind_raise {A B : Type} (e : exn) (k : A -> M B) (t : list event) :
  bind (raise e) k t = (inl e, t).
Proof. reflexivity. Qed.

Lemma file_events_app (t u : list event) :
  file_events (t ++ u) = file_events t ++ file_events u.
Proof. unfold file_events. apply filter_app. Qed.

(** ** The constructor *)

(** C10: a compression level that is false in a boolean context (0, None)
    is replaced by 10, a true one is kept, and so the stored level is never
    0, whatever the constructor is given. *)
Theorem compression_level_falsy_is_10 (entries0 : CPIOArchive)
    (output : string) (structure0 : option HeaderStructure)
    (compression0 xz_crc0 level0 : option pyval) :
  compression_level
    (CPIOWriter_init entries0 output structure0 compression0
       (Some (PyInt 0)) xz_crc0) = PyInt 10
  /\ compression_level
       (CPIOWriter_init entries0 output structure0 compression0
          (Some PyNone) xz_crc0) = PyInt 10
  /\ compression_level
       (CPIOWriter_init entries0 output structure0 compression0
          level0 xz_crc0)
     = (if truthy (keyword default_compression_level level0)
        then keyword default_compression_level level0 else PyInt 10)
  /\ truthy (compression_level
               (CPIOWriter_init entries0 output structure0 compression0
                  level0 xz_crc0)) = true
  /\ compression_level
       (CPIOWriter_init entries0 output structure0 compression0
          level0 xz_crc0) <> PyInt 0.
Proof.
  repeat split; try reflexivity.
  - simpl. unfold py_or.
    destruct (truthy (keyword default_compression_level level0)) eqn:E;
      [exact E | reflexivity].
  - simpl. unfold py_or.
    destruct (truthy (keyword default_compression_level level0)) eqn:E.
    + intros H. rewrite H in E. discriminate E.
    + discriminate.
Qed.

(** What the constructor stores for a string: its lower case, with "true"
    and "false" turned into the booleans. *)
Lemma init_compression_str (entries0 : CPIOArchive) (output : string)
    (structure0 : option HeaderStructure) (level0 xz_crc0 : option pyval)
    (s : string) :
  compression
    (CPIOWriter_init entries0 output structure0 (Some (PyStr s)) level0 xz_crc0)
  = (if String.eqb (lower s) "true" then PyBool true
     else if String.eqb (lower s) "false" then PyBool false
     else PyStr (lower s)).
Proof. reflexivity. Qed.

(** ** compress *)

Lemma compress_no_compression (self : CPIOWriter) (d : list byte)
    (t : list event) :
  compression self = PyBool false ->
  compress self d t = (inr d, t ++ [Log INFO MsgNoCompression]).
Proof. intros H. unfold compress. rewrite H. reflexivity. Qed.

Lemma compress_xz (self : CPIOWriter) (d : list byte) (t : list event) :
  compression self = PyStr "xz" ->
  compress self d t
  = (external_call "lzma" "compress" d [] [("check"%string, xz_crc self)],
     t ++ [Log DEBUG (MsgCompressingWith "lzma.compress");
           Log INFO (MsgCompressing "XZ" (List.length d))]).
Proof.
  intros H. unfold compress, run_compressor. rewrite H. simpl.
  unfold bind, log, emit, lift. simpl.
  rewrite <- app_assoc. reflexivity.
Qed.

Lemma compress_zstd (self : CPIOWriter) (d : list byte) (t : list event) :
  compression self = PyStr "zstd" ->
  compress self d t
  = (if installed "zstandard"
     then (external_call "zstandard" "compress" d [compression_level self] [],
           t ++ [Log DEBUG (MsgCompressingWith "zstandard.compress");
                 Log INFO (MsgCompressing "ZSTD" (List.length d))])
     else (inl (UnavailableCompression (ImportFailed "zstandard.compress")),
           t)).
Proof.
  intros H. unfold compress, run_compressor. rewrite H. simpl.
  unfold import_ok. simpl.
  destruct (installed "zstandard"); simpl; [|reflexivity].
  unfold bind, log, emit, lift. simpl.
  rewrite <- app_assoc. reflexivity.
Qed.

Lemma compress_True (self : CPIOWriter) (d : list byte) (t : list event) :
  compression self = PyBool true ->
  compress self d t
  = (inl (AttributeError "upper"),
     t ++ [Log DEBUG (MsgCompressingWith "lzma.compress")]).
Proof.
  intros H. unfold compress, run_compressor. rewrite H. simpl.
  unfold bind, log, emit, lift. reflexivity.
Qed.

Lemma compress_unsupported (self : CPIOWriter) (d : list byte)
    (t : list event) :
  supported_scheme (compression self) = false ->
  compress self d t
  = (inl (UnavailableCompression (NotSupported (compression self))), t).
Proof.
  unfold supported_scheme, compress. intros H.
  apply orb_false_iff in H. destruct H as [H H4].
  apply orb_false_iff in H. destruct H as [H H3].
  apply orb_false_iff in H. destruct H as [H1 H2].
  rewrite H1, H2, H3, H4. reflexivity.
Qed.

(** C8: the schemes of [compress].  Without compression the input comes
    back unchanged; "xz" calls [lzma.compress] with the writer's check
    mode, which is CRC32 unless the caller gives another; "zstd" calls
    [zstandard.compress] with the writer's compression level (when the
    module can be imported); and whenever [compress] returns bytes, the
    scheme is one of these three. *)
Theorem compress_supported_schemes (entries0 : CPIOArchive) (output : string)
    (structure0 : option HeaderStructure) (level0 xz_crc0 : option pyval)
    (d : list byte) (t : list event) :
  let w c := CPIOWriter_init entries0 output structure0 c level0 xz_crc0 in
  compress (w None) d t = (inr d, t ++ [Log INFO MsgNoCompression])
  /\ compress (w (Some (PyBool false))) d t
     = (inr d, t ++ [Log INFO MsgNoCompression])
  /\ compress (w (Some (PyStr "xz"))) d t
     = (external_call "lzma" "compress" d []
          [("check"%string, keyword (PyInt CHECK_CRC32) xz_crc0)],
        t ++ [Log DEBUG (MsgCompressingWith "lzma.compress");
              Log INFO (MsgCompressing "XZ" (List.length d))])
  /\ compress (w (Some (PyStr "zstd"))) d t
     = (if installed "zstandard"
        then (external_call "zstandard" "compress" d
                [compression_level (w (Some (PyStr "zstd")))] [],
              t ++ [Log DEBUG (MsgCompressingWith "zstandard.compress");
                    Log INFO (MsgCompressing "ZSTD" (List.length d))])
        else (inl (UnavailableCompression (ImportFailed "zstandard.compress")),
              t))
  /\ forall self : CPIOWriter,
       match fst (compress self d t) with
       | inr _ =>
           compression self = PyBool false
           \/ compression self = PyStr "xz"
           \/ compression self = PyStr "zstd"
       | inl _ => True
       end.
Proof.
  intros w.
  split; [|split; [|split; [|split]]].
  - apply compress_no_compression. reflexivity.
  - apply compress_no_compression. reflexivity.
  - rewrite compress_xz by reflexivity. reflexivity.
  - apply compress_zstd. reflexivity.
  - intros self.
    destruct (supported_scheme (compression self)) eqn:S.
    + unfold supported_scheme in S.
      destruct (compression self) as [| [|] | z | s] eqn:C; simpl in S;
        try discriminate S.
      * rewrite compress_True by exact C. exact I.
      * rewrite compress_no_compression by exact C. simpl. auto.
      * destruct (String.eqb_spec s "xz") as [->|Hx].
        { destruct (fst (compress self d t)); auto. }
        destruct (String.eqb_spec s "zstd") as [->|Hz].
        { destruct (fst (compress self d t)); auto. }
        simpl in S. discriminate S.
    + rewrite compress_unsupported by exact S. exact I.
Qed.

(** C9, evaluated: a writer built with [True], or with a string that is
    "true" up to case, takes the lzma branch of [compress] and then raises
    [AttributeError] at line 82, where [upper] is asked of a bool; no
    compressed bytes are returned.  A string that is "false" up to case
    gives the input back. *)
Theorem compress_true_raises_AttributeError (entries0 : CPIOArchive)
    (output : string) (structure0 : option HeaderStructure)
    (level0 xz_crc0 : option pyval) (s : string) (d : list byte)
    (t : list event) :
  lower s = "true"%string ->
  let w c := CPIOWriter_init entries0 output structure0 c level0 xz_crc0 in
  compress (w (Some (PyBool true))) d t
  = (inl (AttributeError "upper"),
     t ++ [Log DEBUG (MsgCompressingWith "lzma.compress")])
  /\ compress (w (Some (PyStr s))) d t
     = (inl (AttributeError "upper"),
        t ++ [Log DEBUG (MsgCompressingWith "lzma.compress")]).
Proof.
  intros H w. split.
  - apply compress_True. reflexivity.
  - apply compress_True. unfold w. rewrite init_compression_str, H.
    reflexivity.
Qed.

Lemma compress_false_string (entries0 : CPIOArchive)
    (output : string) (structure0 : option HeaderStructure)
    (level0 xz_crc0 : option pyval) (s : string) (d : list byte)
    (t : list event) :
  lower s = "false"%string ->
  compress
    (CPIOWriter_init entries0 output structure0 (Some (PyStr s)) level0 xz_crc0)
    d t
  = (inr d, t ++ [Log INFO MsgNoCompression]).
Proof.
  intros H. apply compress_no_compression.
  rewrite init_compression_str, H. reflexivity.
Qed.

(** ** __bytes__ and write *)

Lemma write_unfold (self : CPIOWriter) (safe_write : bool) (t : list event) :
  write self safe_write t
  = match compress self
            (CPIOArchive_bytes (cpio_entries self)
             ++ CPIOHeader_bytes (trailer (self_structure self)))
            (t ++ [Log DEBUG (MsgWritingTo (output_file self));
                   Log DEBUG (MsgBuildingTrailer
                                (trailer (self_structure self)))]) with
    | (inl e, t1) => (inl e, t1)
    | (inr d, t1) =>
        bind
          (with_open (output_file self)
             (io OpWrite (Written (output_file self) d) ;;
              if safe_write
              then io OpFlush (Flushed (output_file self)) ;;
                   io OpFsync (Fsynced (output_file self))
              else log WARNING (MsgNotFsynced (output_file self))))
          (fun _ => log INFO (MsgWrote (List.length d) (output_file self)))
          t1
    end.
Proof.
  unfold write, CPIOWriter_bytes, bind at 1 2 3, log at 1 2, emit, ret.
  rewrite <- app_assoc. reflexivity.
Qed.

(** C2: with a compression scheme that [compress] has no branch for,
    [write] raises [UnavailableCompression]; it has logged two debug
    records by then and has neither opened the output file nor written to
    it. *)
Theorem write_unsupported_compression (self : CPIOWriter)
    (safe_write : bool) (t : list event) :
  supported_scheme (compression self) = false ->
  write self safe_write t
  = (inl (UnavailableCompression (NotSupported (compression self))),
     t ++ [Log DEBUG (MsgWritingTo (output_file self));
           Log DEBUG (MsgBuildingTrailer (trailer (self_structure self)))])
  /\ file_events (snd (write self safe_write t)) = file_events t.
Proof.
  intros H.
  assert (E : write self safe_write t
              = (inl (UnavailableCompression (NotSupported (compression self))),
                 t ++ [Log DEBUG (MsgWritingTo (output_file self));
                       Log DEBUG (MsgBuildingTrailer
                                    (trailer (self_structure self)))])).
  { rewrite write_unfold, compress_unsupported by exact H. reflexivity. }
  split; [exact E|].
  rewrite E. simpl. rewrite file_events_app. simpl. apply app_nil_r.
Qed.

(** C7: when serialization and compression have produced [d] and the
    operating system carries out what it is asked, [write] with the safe
    flag opens the file, writes [d], flushes, fsyncs and only then closes;
    without the flag it opens, writes [d], logs a warning and closes.  Both
    return normally. *)
Theorem write_durability (self : CPIOWriter) (t t1 : list event)
    (d : list byte) :
  compress self
    (CPIOArchive_bytes (cpio_entries self)
     ++ CPIOHeader_bytes (trailer (self_structure self)))
    (t ++ [Log DEBUG (MsgWritingTo (output_file self));
           Log DEBUG (MsgBuildingTrailer (trailer (self_structure self)))])
  = (inr d, t1) ->
  (forall op, io_fails op = false) ->
  write self true t
  = (inr tt,
     t1 ++ [Opened (output_file self);
            Written (output_file self) d;
            Flushed (output_file self);
            Fsynced (output_file self);
            Closed (output_file self);
            Log INFO (MsgWrote (List.length d) (output_file self))])
  /\ write self false t
     = (inr tt,
        t1 ++ [Opened (output_file self);
               Written (output_file self) d;
               Log WARNING (MsgNotFsynced (output_file self));
               Closed (output_file self);
               Log INFO (MsgWrote (List.length d) (output_file self))]).
Proof.
  intros Hc Hio.
  split; rewrite write_unfold, Hc;
    unfold bind, with_open, io, log, emit;
    rewrite !Hio; simpl; rewrite <- ?app_assoc; reflexivity.
Qed.

(** [compress] only logs. *)
Lemma compress_only_logs (self : CPIOWriter) (d : list byte) (t : list event) :
  exists logs, snd (compress self d t) = t ++ logs
               /\ file_events logs = [].
Proof.
  destruct (supported_scheme (compression self)) eqn:S.
  - unfold supported_scheme in S.
    destruct (compression self) as [| [|] | z | s] eqn:C; simpl in S;
      try discriminate S.
    + rewrite compress_True by exact C. eexists; split; reflexivity.
    + rewrite compress_no_compression by exact C.
      eexists; split; reflexivity.
    + destruct (String.eqb_spec s "xz") as [->|Hx].
      { rewrite compress_xz by exact C. eexists; split; reflexivity. }
      destruct (String.eqb_spec s "zstd") as [->|Hz].
      { rewrite compress_zstd by exact C.
        destruct (installed "zstandard").
        - eexists; split; reflexivity.
        - exists []. rewrite app_nil_r. split; reflexivity. }
      simpl in S. discriminate S.
  - rewrite compress_unsupported by exact S.
    exists []. rewrite app_nil_r. split; reflexivity.
Qed.

Lemma open_handles_app (t u : list event) :
  open_handles (t ++ u)
  = fold_left (fun n e => match e with
                          | Opened _ => S n
                          | Closed _ => Nat.pred n
                          | _ => n
                          end) u (open_handles t).
Proof. unfold open_handles. apply fold_left_app. Qed.

Lemma fold_logs (logs : list event) :
  file_events logs = [] ->
  forall n,
    fold_left (fun n e => match e with
                          | Opened _ => S n
                          | Closed _ => Nat.pred n
                          | _ => n
                          end) logs n = n.
Proof.
  induction logs as [|e r IH]; intros H n; [reflexivity|].
  destruct e; try discriminate H; simpl in *. apply IH. exact H.
Qed.

Ltac handles L :=
  simpl; rewrite <- ?app_assoc; rewrite open_handles_app; simpl;
  rewrite ?fold_left_app, (fold_logs _ L); reflexivity.

(** The handle is released on every path of [write]: whatever the
    operating system refuses and whatever [compress] raises, as many
    handles are open after the call as before it. *)
Lemma write_releases_handle (self : CPIOWriter) (safe_write : bool)
    (t : list event) :
  open_handles (snd (write self safe_write t)) = open_handles t.
Proof.
  rewrite write_unfold.
  destruct (compress_only_logs self
              (CPIOArchive_bytes (cpio_entries self)
               ++ CPIOHeader_bytes (trailer (self_structure self)))
              (t ++ [Log DEBUG (MsgWritingTo (output_file self));
                     Log DEBUG (MsgBuildingTrailer
                                  (trailer (self_structure self)))]))
    as [logs [E L]].
  destruct (compress _ _ _) as [[e|d] t1]; simpl in E; subst t1.
  - handles L.
  - unfold bind, with_open, io, log, emit, raise.
    destruct (io_fails OpOpen); [handles L|].
    destruct (io_fails OpClose), (io_fails OpWrite), safe_write,
      (io_fails OpFlush), (io_fails OpFsync); handles L.
Qed.

(** ** Sizes *)

Lemma to_hex_length (w : nat) (n : N) : List.length (to_hex w n) = w.
Proof.
  revert n. induction w as [|w IH]; intros n; simpl; [reflexivity|].
  rewrite length_app, IH. simpl. lia.
Qed.

Lemma list_byte_of_string_length (s : string) :
  List.length (list_byte_of_string s) = String.length s.
Proof.
  unfold list_byte_of_string. rewrite length_map.
  induction s as [|c r IH]; simpl; [reflexivity | now rewrite IH].
Qed.

Lemma fields_length (h : CPIOHeader) :
  List.length (List.concat (map (to_hex FIELD_WIDTH) (numeric_fields h)))
  = FIELD_COUNT * FIELD_WIDTH.
Proof.
  unfold numeric_fields. cbn [map List.concat].
  rewrite !length_app, !to_hex_length. reflexivity.
Qed.

Lemma pad4_lt (n : nat) : pad4 n < 4.
Proof. unfold pad4. apply Nat.mod_upper_bound. discriminate. Qed.

Lemma pad4_aligned (n : nat) : (n + pad4 n) mod 4 = 0.
Proof.
  unfold pad4.
  pose proof (Nat.mod_upper_bound n 4 ltac:(discriminate)) as B.
  pose proof (Nat.div_mod_eq n 4) as D.
  destruct (Nat.eq_dec (n mod 4) 0) as [Z|NZ].
  - rewrite Z. simpl. rewrite Nat.add_0_r. exact Z.
  - rewrite (Nat.mod_small (4 - n mod 4)) by lia.
    replace (n + (4 - n mod 4)) with (0 + (1 + n / 4) * 4) by lia.
    rewrite Nat.Div0.mod_add. reflexivity.
Qed.

Lemma CPIOHeader_bytes_length (h : CPIOHeader) :
  List.length (CPIOHeader_bytes h)
  = List.length (magic (structure h)) + FIELD_COUNT * FIELD_WIDTH
    + (String.length (name h) + 1)
    + pad4 (HEADER_SIZE + (String.length (name h) + 1)).
Proof.
  unfold CPIOHeader_bytes, padding, namesize.
  rewrite !length_app, fields_length, list_byte_of_string_length,
    repeat_length, Nat2N.id.
  simpl List.length. lia.
Qed.

Lemma CPIOData_bytes_length (e : CPIOData) :
  List.length (CPIOData_bytes e)
  = List.length (CPIOHeader_bytes (header e))
    + (List.length (data e) + pad4 (List.length (data e))).
Proof.
  unfold CPIOData_bytes, padding.
  rewrite !length_app, repeat_length. reflexivity.
Qed.

Lemma set_nlink_bytes_length (n : N) (e : CPIOData) :
  List.length (CPIOData_bytes (set_nlink n e))
  = List.length (CPIOData_bytes e).
Proof.
  rewrite !CPIOData_bytes_length, !CPIOHeader_bytes_length. reflexivity.
Qed.

Lemma CPIOArchive_bytes_snoc (es : list (string * CPIOData))
    (pe : string * CPIOData) (n : N) (n' : N) :
  CPIOArchive_bytes {| entries := es ++ [pe]; next_inode := n |}
  = CPIOArchive_bytes {| entries := es; next_inode := n' |}
    ++ CPIOData_bytes (snd pe).
Proof.
  unfold CPIOArchive_bytes. simpl.
  rewrite map_app, concat_app. simpl. now rewrite app_nil_r.
Qed.

(** ** The store as a dict *)

Lemma dict_set_fresh {V : Type} (k : string) (v : V)
    (d : list (string * V)) :
  ~ In k (map fst d) -> dict_set k v d = d ++ [(k, v)].
Proof.
  induction d as [|[k' v'] r IH]; intros H; simpl; [reflexivity|].
  destruct (String.eqb_spec k k') as [->|N].
  - exfalso. apply H. left. reflexivity.
  - rewrite IH; [reflexivity|]. intros I. apply H. right. exact I.
Qed.

Lemma relink_keys (i n : N) (es : list (string * CPIOData)) :
  map fst (relink i n es) = map fst es.
Proof.
  unfold relink. rewrite map_map. apply map_ext.
  intros pe. destruct (ino (header (snd pe)) =? i)%N; reflexivity.
Qed.

Lemma relink_data (i n : N) (es : list (string * CPIOData)) :
  map (fun pe => data (snd pe)) (relink i n es)
  = map (fun pe => data (snd pe)) es.
Proof.
  unfold relink. rewrite map_map. apply map_ext.
  intros pe. destruct (ino (header (snd pe)) =? i)%N; reflexivity.
Qed.

Lemma relink_bytes_length (i n n1 n2 : N) (es : list (string * CPIOData)) :
  List.length
    (CPIOArchive_bytes {| entries := relink i n es; next_inode := n1 |})
  = List.length (CPIOArchive_bytes {| entries := es; next_inode := n2 |}).
Proof.
  unfold CPIOArchive_bytes. simpl.
  induction es as [|pe r IH]; [reflexivity|].
  simpl. rewrite !length_app, IH. f_equal.
  destruct (ino (header (snd pe)) =? i)%N; [|reflexivity].
  simpl. apply set_nlink_bytes_length.
Qed.

Lemma name_padding_snoc (done : list string) (p : string) :
  name_padding (done ++ [p])
  = name_padding done + (1 + pad4 (HEADER_SIZE + (String.length p + 1))).
Proof.
  unfold name_padding. rewrite map_app, list_sum_app. simpl. lia.
Qed.

Lemma total_name_length_snoc (done : list string) (p : string) :
  total_name_length (done ++ [p])
  = total_name_length done + String.length p.
Proof.
  unfold total_name_length. rewrite map_app, list_sum_app. simpl. lia.
Qed.

(** ** Deduplication *)

Lemma dedup_eligible_file_type (m m0 : N) :
  file_type m = file_type m0 -> dedup_eligible m = dedup_eligible m0.
Proof. unfold dedup_eligible. intros ->. reflexivity. Qed.

Lemma eligible_not_symlink (m : N) :
  dedup_eligible m = true -> is_symlink m = false.
Proof.
  unfold dedup_eligible, is_symlink. intros H.
  apply negb_true_iff, orb_false_iff in H. apply H.
Qed.

Lemma payload_not_symlink (f : AppendFields) (c : list byte) :
  is_symlink (a_mode f) = false -> payload f c = c.
Proof. unfold payload. intros ->. reflexivity. Qed.

Lemma new_entry_bytes_length (p : string) (f : AppendFields) (i n h : N)
    (stored : list byte) :
  List.length (CPIOData_bytes (new_entry p f i n stored h))
  = HEADER_SIZE + (String.length p + 1)
    + pad4 (HEADER_SIZE + (String.length p + 1))
    + (List.length stored + pad4 (List.length stored)).
Proof.
  rewrite CPIOData_bytes_length, CPIOHeader_bytes_length. reflexivity.
Qed.

(** The first entry of a store carries its content. *)
Lemma append_first (p : string) (f : AppendFields) (c : list byte)
    (n : N) (a : CPIOArchive) (e : CPIOData) :
  dedup_eligible (a_mode f) = true ->
  append {| entries := []; next_inode := n |} p f c = inr (a, e) ->
  holds_once c (a_mode f) [p] a.
Proof.
  intros E H. unfold append in H.
  destruct (refused f); [discriminate H|].
  rewrite (payload_not_symlink f c (eligible_not_symlink _ E)), E in H.
  unfold find_duplicate in H. simpl in H.
  inversion H; subst; clear H.
  unfold holds_once. cbn [entries dict_set map fst].
  split; [reflexivity|]. split; [|split].
  - eexists. split; [left; reflexivity|]. simpl. split; reflexivity.
  - unfold CPIOArchive_bytes. cbn [entries map List.concat snd].
    rewrite app_nil_r, new_entry_bytes_length.
    unfold total_name_length, name_padding. simpl. lia.
  - simpl. apply app_nil_r.
Qed.

(** A further entry of the same digest and file type at a new path stores
    no content. *)
Lemma append_duplicate (p : string) (f : AppendFields) (c : list byte)
    (m0 : N) (done : list string) (a a' : CPIOArchive) (e : CPIOData) :
  holds_once c m0 done a ->
  ~ In p done ->
  file_type (a_mode f) = file_type m0 ->
  dedup_eligible m0 = true ->
  append a p f c = inr (a', e) ->
  holds_once c m0 (done ++ [p]) a'.
Proof.
  intros [K [[pe [I [Hh Ht]]] [L C]]] NI T E H.
  assert (E' : dedup_eligible (a_mode f) = true)
    by (rewrite (dedup_eligible_file_type _ _ T); exact E).
  unfold append in H.
  destruct (refused f); [discriminate H|].
  rewrite (payload_not_symlink f c (eligible_not_symlink _ E')), E' in H.
  destruct (find_duplicate a p (sha256 c) (a_mode f)) as [[q first]|] eqn:F.
  - inversion H; subst a' e; clear H.
    set (i := ino (header first)) in *.
    set (n := (nlink (header first) + 1)%N) in *.
    set (e := new_entry p f i n [] (sha256 c)) in *.
    assert (D : dict_set p e (relink i n (entries a))
                = relink i n (entries a) ++ [(p, e)]).
    { apply dict_set_fresh. rewrite relink_keys, K. exact NI. }
    unfold holds_once. cbn [entries]. rewrite D.
    split; [|split; [|split]].
    + rewrite map_app, relink_keys, K. reflexivity.
    + exists (p, e). split; [apply in_or_app; right; left; reflexivity|].
      simpl. split; [reflexivity | exact T].
    + rewrite (CPIOArchive_bytes_snoc _ _ _ (next_inode a)), length_app.
      rewrite (relink_bytes_length _ _ _ (next_inode a)).
      replace {| entries := entries a; next_inode := next_inode a |}
        with a by (destruct a; reflexivity).
      rewrite L. simpl snd. unfold e. rewrite new_entry_bytes_length.
      rewrite length_app, name_padding_snoc, total_name_length_snoc.
      change (pad4 (List.length (@nil byte))) with 0.
      change (List.length (@nil byte)) with 0.
      change (List.length [p]) with 1. lia.
    + rewrite map_app, concat_app, relink_data, C. simpl.
      now rewrite !app_nil_r.
  - exfalso. unfold find_duplicate in F.
    pose proof (find_none _ _ F pe I) as X. simpl in X.
    rewrite Hh, Ht, T, !N.eqb_refl, !andb_true_r in X.
    apply negb_false_iff in X. apply String.eqb_eq in X.
    apply NI. rewrite <- K, <- X. apply in_map. exact I.
Qed.

Lemma append_many_duplicates (c : list byte) (m0 : N)
    (items : list (string * AppendFields)) :
  dedup_eligible m0 = true ->
  forall (done : list string) (a a' : CPIOArchive),
    holds_once c m0 done a ->
    NoDup (done ++ map fst items) ->
    (forall pf, In pf items -> file_type (a_mode (snd pf)) = file_type m0) ->
    append_many a (map (fun pf => (fst pf, snd pf, c)) items) = inr a' ->
    holds_once c m0 (done ++ map fst items) a'.
Proof.
  intros E. induction items as [|[p f] r IH]; intros done a a' Ha ND T H.
  - simpl in *. inversion H; subst. rewrite app_nil_r. exact Ha.
  - simpl in H.
    destruct (append a p f c) as [x|[a1 e]] eqn:A; [discriminate H|].
    simpl. replace (done ++ p :: map fst r) with ((done ++ [p]) ++ map fst r)
      by (rewrite <- app_assoc; reflexivity).
    apply (IH (done ++ [p]) a1 a').
    + apply (@append_duplicate p f c m0 done a a1 e Ha); auto.
      * simpl in ND. apply NoDup_remove_2 in ND.
        intros I. apply ND. apply in_or_app. left. exact I.
      * apply (T (p, f)). left. reflexivity.
    + rewrite <- app_assoc. exact ND.
    + intros pf I. apply T. right. exact I.
    + exact H.
Qed.

(** C3, amended to entries of one file type that is deduplicated, and to
    the bytes of the store: [N] entries at distinct paths with the same
    content [c], appended to an empty store, give a store whose bytes are at
    most [N] headers, the names, one more header size, the content and the
    padding of the names; the content is stored once.  The trailer that the
    writer appends takes 124 bytes more. *)
Theorem dedup_bound (items : list (string * AppendFields)) (c : list byte)
    (m0 : N) (a : CPIOArchive) :
  NoDup (map fst items) ->
  dedup_eligible m0 = true ->
  (forall pf, In pf items -> file_type (a_mode (snd pf)) = file_type m0) ->
  append_many empty_archive (map (fun pf => (fst pf, snd pf, c)) items)
  = inr a ->
  List.length (CPIOArchive_bytes a)
  <= List.length items * HEADER_SIZE + total_name_length (map fst items)
     + HEADER_SIZE + List.length c + name_padding (map fst items)
  /\ List.concat (map (fun pe => data (snd pe)) (entries a))
     = match items with [] => [] | _ :: _ => c end
  /\ CPIOArchive_list a = map fst items
  /\ List.length (CPIOArchive_bytes a
                  ++ CPIOHeader_bytes (trailer HEADER_NEW))
     = List.length (CPIOArchive_bytes a) + 124.
Proof.
  intros ND E T H.
  assert (Tr : List.length (CPIOArchive_bytes a
                            ++ CPIOHeader_bytes (trailer HEADER_NEW))
               = List.length (CPIOArchive_bytes a) + 124)
    by (rewrite length_app; reflexivity).
  destruct items as [|[p f] r].
  - simpl in H. inversion H; subst. simpl. repeat split. lia.
  - simpl in H.
    destruct (append empty_archive p f c) as [x|[a1 e]] eqn:A;
      [discriminate H|].
    assert (Tp : file_type (a_mode f) = file_type m0)
      by (apply (T (p, f)); left; reflexivity).
    assert (H1 : holds_once c m0 [p] a1).
    { unfold empty_archive in A. apply append_first in A.
      - destruct A as [K [[pe [I [Hh Ht]]] [L C]]].
        repeat split; auto. exists pe. rewrite <- Tp. auto.
      - rewrite (dedup_eligible_file_type _ _ Tp). exact E. }
    assert (H2 : holds_once c m0 ([p] ++ map fst r) a).
    { apply (@append_many_duplicates c m0 r E [p] a1 a); auto.
      intros pf I. apply T. right. exact I. }
    destruct H2 as [K [_ [L C]]]. simpl in K.
    repeat split.
    + rewrite L. simpl List.length. rewrite length_map.
      pose proof (pad4_lt (List.length c)).
      unfold HEADER_SIZE, FIELD_COUNT, FIELD_WIDTH. simpl. lia.
    + exact C.
    + exact K.
    + exact Tr.
Qed.

(** ** The trailer *)


(** ** Hexadecimal fields read back *)

Lemma hex_value_digit (d : N) :
  (d < 16)%N -> hex_value (hex_digit d) = Some d.
Proof.
  intros H.
  assert (C : (d = 0 \/ d = 1 \/ d = 2 \/ d = 3 \/ d = 4 \/ d = 5 \/ d = 6
               \/ d = 7 \/ d = 8 \/ d = 9 \/ d = 10 \/ d = 11 \/ d = 12
               \/ d = 13 \/ d = 14 \/ d = 15)%N) by lia.
  repeat (destruct C as [->|C]; [reflexivity|]). subst d. reflexivity.
Qed.

Lemma of_hex_to_hex (w : nat) :
  forall (n acc : N),
    fold_left hex_step (to_hex w n) (Some acc)
    = Some (acc * 16 ^ N.of_nat w + n mod 16 ^ N.of_nat w)%N.
Proof.
  induction w as [|w IH]; intros n acc.
  - simpl. rewrite N.mod_1_r. f_equal. lia.
  - cbn [to_hex]. rewrite fold_left_app, IH. cbn [fold_left].
    unfold hex_step. rewrite hex_value_digit
      by (apply N.mod_upper_bound; discriminate).
    f_equal. rewrite Nat2N.inj_succ, N.pow_succ_r'.
    rewrite (N.Div0.mod_mul_r n 16 (16 ^ N.of_nat w)). lia.
Qed.

Lemma of_hex_field (n : N) :
  (n < 2 ^ 32)%N -> of_hex (to_hex FIELD_WIDTH n) = Some n.
Proof.
  intros H. unfold of_hex. rewrite of_hex_to_hex.
  change (16 ^ N.of_nat FIELD_WIDTH)%N with (2 ^ 32)%N.
  rewrite N.mod_small by exact H. reflexivity.
Qed.

(** ** Reading a prefix of known length *)

Lemma take_app (xs rest : list byte) :
  take (List.length xs) (xs ++ rest) = Some (xs, rest).
Proof.
  unfold take. rewrite length_app.
  replace (List.length xs + List.length rest <? List.length xs) with false
    by (symmetry; apply Nat.ltb_ge; lia).
  rewrite firstn_app, Nat.sub_diag, firstn_all, firstn_O, app_nil_r.
  rewrite skipn_app, Nat.sub_diag, skipn_all, skipn_O. reflexivity.
Qed.

Lemma skipn_exact {A : Type} (xs rest : list A) :
  skipn (List.length xs) (xs ++ rest) = rest.
Proof. rewrite skipn_app, Nat.sub_diag, skipn_all, skipn_O. reflexivity. Qed.

Lemma firstn_exact {A : Type} (xs rest : list A) :
  firstn (List.length xs) (xs ++ rest) = xs.
Proof.
  rewrite firstn_app, Nat.sub_diag, firstn_all, firstn_O.
  apply app_nil_r.
Qed.

Lemma take_field_to_hex (n : N) (rest : list byte) :
  (n < 2 ^ 32)%N ->
  take_field (to_hex FIELD_WIDTH n ++ rest) = inr (n, rest).
Proof.
  intros H. unfold take_field.
  rewrite <- (to_hex_length FIELD_WIDTH n) at 1.
  rewrite take_app, of_hex_field by exact H. reflexivity.
Qed.

Lemma take_fields_to_hex (vs : list N) (rest : list byte) :
  Forall (fun v => (v < 2 ^ 32)%N) vs ->
  take_fields (List.length vs)
    (List.concat (map (to_hex FIELD_WIDTH) vs) ++ rest)
  = inr (vs, rest).
Proof.
  induction 1 as [|v r Hv Hr IH]; [reflexivity|].
  cbn [List.length map List.concat take_fields].
  rewrite <- app_assoc, take_field_to_hex by exact Hv.
  rewrite IH. reflexivity.
Qed.

(** ** A header read back *)

Lemma header_size_of_bytes (h : CPIOHeader) :
  List.length (magic (structure h)) = 6 ->
  List.length (CPIOHeader_bytes h)
  = HEADER_SIZE + N.to_nat (namesize h)
    + pad4 (HEADER_SIZE + N.to_nat (namesize h)).
Proof.
  intros M. rewrite CPIOHeader_bytes_length, M.
  unfold namesize. rewrite Nat2N.id. reflexivity.
Qed.

(** Header and name end on a 4-byte boundary, and so does the content. *)
Lemma CPIOHeader_bytes_aligned (h : CPIOHeader) :
  List.length (magic (structure h)) = 6 ->
  List.length (CPIOHeader_bytes h) mod 4 = 0.
Proof.
  intros M. rewrite header_size_of_bytes by exact M. apply pad4_aligned.
Qed.

Lemma CPIOData_bytes_aligned (e : CPIOData) :
  List.length (magic (structure (header e))) = 6 ->
  List.length (CPIOData_bytes e) mod 4 = 0.
Proof.
  intros M. rewrite CPIOData_bytes_length.
  rewrite Nat.Div0.add_mod, CPIOHeader_bytes_aligned, pad4_aligned
    by exact M.
  reflexivity.
Qed.

(** [decode] undoes [CPIOHeader_bytes], wherever the header stands in the
    input, and consumes exactly its bytes. *)
Lemma decode_CPIOHeader_bytes (h : CPIOHeader) (pre rest : list byte) :
  List.length (magic (structure h)) = 6 ->
  Forall (fun v => (v < 2 ^ 32)%N) (numeric_fields h) ->
  decode (structure h) (pre ++ CPIOHeader_bytes h ++ rest) (List.length pre)
  = inr (h, List.length (CPIOHeader_bytes h)).
Proof.
  intros M B. unfold decode. rewrite skipn_exact.
  pose proof (header_size_of_bytes h M) as L.
  unfold CPIOHeader_bytes in *.
  rewrite <- !app_assoc. rewrite <- M at 1. rewrite take_app.
  unfold bytes_eqb.
  destruct (list_eq_dec byte_eq_dec (magic (structure h))
              (magic (structure h))) as [_|N]; [|contradiction].
  cbn [negb].
  change FIELD_COUNT with (List.length (numeric_fields h)).
  rewrite take_fields_to_hex by exact B.
  cbn [numeric_fields].
  rewrite !length_app in *.
  replace (_ <? _) with false.
  2:{ symmetry. apply Nat.ltb_ge. rewrite <- L. lia. }
  rewrite L. f_equal. f_equal.
  unfold namesize. rewrite Nat2N.id, Nat.add_sub.
  rewrite <- list_byte_of_string_length, firstn_exact.
  rewrite string_of_list_byte_of_string.
  destruct h; reflexivity.
Qed.
(** ** Appending a path that is in the store *)











(** ** More on the constructor *)

Lemma lower_idempotent (s : string) : lower (lower s) = lower s.
Proof.
  induction s as [|c r IH]; simpl; [reflexivity|].
  rewrite IH. f_equal.
  unfold ascii_lower.
  destruct ((65 <=? N_of_ascii c) && (N_of_ascii c <=? 90))%N eqn:E;
    [|rewrite E; reflexivity].
  apply andb_true_iff in E. destruct E as [E1 E2].
  apply N.leb_le in E1, E2.
  rewrite N_ascii_embedding by lia.
  replace ((65 <=? N_of_ascii c + 32) && (N_of_ascii c + 32 <=? 90))%N
    with false; [reflexivity|].
  symmetry. apply andb_false_iff. right. apply N.leb_gt. lia.
Qed.

(** The constructor reads a compression string up to case: a string and
    its lower case give the same writer. *)
Theorem init_compression_case_insensitive (entries0 : CPIOArchive)
    (output : string) (structure0 : option HeaderStructure)
    (level0 xz_crc0 : option pyval) (s : string) :
  CPIOWriter_init entries0 output structure0 (Some (PyStr s)) level0 xz_crc0
  = CPIOWriter_init entries0 output structure0 (Some (PyStr (lower s)))
      level0 xz_crc0.
Proof.
  unfold CPIOWriter_init. cbn [keyword]. rewrite lower_idempotent.
  reflexivity.
Qed.

(** What the constructor stores as compression is in normal form: given
    back to the constructor, it is stored as it is. *)
Theorem init_compression_idempotent (entries0 entries1 : CPIOArchive)
    (output output1 : string) (structure0 structure1 : option HeaderStructure)
    (compression0 level0 xz_crc0 level1 xz_crc1 : option pyval) :
  compression
    (CPIOWriter_init entries1 output1 structure1
       (Some (compression
                (CPIOWriter_init entries0 output structure0 compression0
                   level0 xz_crc0)))
       level1 xz_crc1)
  = compression
      (CPIOWriter_init entries0 output structure0 compression0 level0
         xz_crc0).
Proof.
  unfold CPIOWriter_init. cbn [compression keyword].
  destruct (keyword default_compression compression0) as [| b | z | s].
  - reflexivity.
  - destruct b; reflexivity.
  - unfold py_or. cbn [truthy].
    destruct (z =? 0)%Z eqn:E; cbn [negb]; [reflexivity|].
    cbn [truthy]. rewrite E. reflexivity.
  - destruct (String.eqb_spec (lower s) "true"); [reflexivity|].
    destruct (String.eqb_spec (lower s) "false"); [reflexivity|].
    rewrite lower_idempotent.
    destruct (String.eqb_spec (lower s) "true"); [contradiction|].
    destruct (String.eqb_spec (lower s) "false"); [contradiction|].
    reflexivity.
Qed.

(** A compression argument that is false in a boolean context means no
    compression, unless it is a string: the empty string is kept and
    [compress] refuses it as an unsupported scheme. *)
Theorem compress_falsy_scheme (entries0 : CPIOArchive) (output : string)
    (structure0 : option HeaderStructure) (level0 xz_crc0 : option pyval)
    (v : pyval) (d : list byte) (t : list event) :
  truthy v = false ->
  compress
    (CPIOWriter_init entries0 output structure0 (Some v) level0 xz_crc0) d t
  = (if isinstance_str v
     then (inl (UnavailableCompression (NotSupported (PyStr ""))), t)
     else (inr d, t ++ [Log INFO MsgNoCompression])).
Proof.
  intros F. destruct v as [| b | z | s]; cbn [isinstance_str].
  - apply compress_no_compression. reflexivity.
  - cbn in F. subst b. apply compress_no_compression. reflexivity.
  - apply compress_no_compression. cbn. unfold py_or. rewrite F. reflexivity.
  - cbn in F. apply negb_false_iff, String.eqb_eq in F. subst s.
    apply compress_unsupported. reflexivity.
Qed.

(** ** More on compress and write *)

(** The level that "zstd" runs at is the constructor's argument unless
    that is false in a boolean context (0, None), and then it is 10. *)
Theorem compress_zstd_level (entries0 : CPIOArchive) (output : string)
    (structure0 : option HeaderStructure) (level0 xz_crc0 : option pyval)
    (d : list byte) (t : list event) :
  installed "zstandard" = true ->
  compress
    (CPIOWriter_init entries0 output structure0 (Some (PyStr "zstd")) level0
       xz_crc0) d t
  = (external_call "zstandard" "compress" d
       [if truthy (keyword (PyInt 10) level0)
        then keyword (PyInt 10) level0 else PyInt 10] [],
     t ++ [Log DEBUG (MsgCompressingWith "zstandard.compress");
           Log INFO (MsgCompressing "ZSTD" (List.length d))]).
Proof.
  intros I. rewrite compress_zstd by reflexivity. rewrite I. reflexivity.
Qed.

(** [compress] touches no file: it adds log records to the events so far
    and nothing else, whether it returns or raises. *)
Theorem compress_leaves_files_alone (self : CPIOWriter) (d : list byte)
    (t : list event) :
  firstn (List.length t) (snd (compress self d t)) = t
  /\ file_events (snd (compress self d t)) = file_events t.
Proof.
  destruct (compress_only_logs self d t) as [logs [E L]].
  rewrite E. split.
  - rewrite firstn_app, Nat.sub_diag, firstn_all, firstn_O. apply app_nil_r.
  - rewrite file_events_app, L. apply app_nil_r.
Qed.

(** Whatever [compress] raises, [write] raises, and the output file has
    not been opened by then. *)
Theorem write_raises_what_compress_raises (self : CPIOWriter)
    (safe_write : bool) (t t1 : list event) (e : exn) :
  compress self
    (CPIOArchive_bytes (cpio_entries self)
     ++ CPIOHeader_bytes (trailer (self_structure self)))
    (t ++ [Log DEBUG (MsgWritingTo (output_file self));
           Log DEBUG (MsgBuildingTrailer (trailer (self_structure self)))])
  = (inl e, t1) ->
  write self safe_write t = (inl e, t1)
  /\ file_events t1 = file_events t.
Proof.
  intros H. split.
  - rewrite write_unfold, H. reflexivity.
  - destruct (compress_only_logs self
                (CPIOArchive_bytes (cpio_entries self)
                 ++ CPIOHeader_bytes (trailer (self_structure self)))
                (t ++ [Log DEBUG (MsgWritingTo (output_file self));
                       Log DEBUG (MsgBuildingTrailer
                                    (trailer (self_structure self)))]))
      as [logs [E L]].
    rewrite H in E. cbn [snd] in E. rewrite E.
    rewrite !file_events_app, L. cbn. now rewrite !app_nil_r.
Qed.

(** With the scheme "zstd" and no zstandard module to import, [write]
    raises [UnavailableCompression] for the failed import and has not
    opened the output file. *)
Theorem write_zstd_not_installed (entries0 : CPIOArchive) (output : string)
    (structure0 : option HeaderStructure) (level0 xz_crc0 : option pyval)
    (safe_write : bool) (t : list event) :
  installed "zstandard" = false ->
  let self :=
    CPIOWriter_init entries0 output structure0 (Some (PyStr "zstd")) level0
      xz_crc0 in
  write self safe_write t
  = (inl (UnavailableCompression (ImportFailed "zstandard.compress")),
     t ++ [Log DEBUG (MsgWritingTo output);
           Log DEBUG (MsgBuildingTrailer (trailer (self_structure self)))])
  /\ file_events (snd (write self safe_write t)) = file_events t.
Proof.
  intros I self.
  assert (C : compress self
                (CPIOArchive_bytes (cpio_entries self)
                 ++ CPIOHeader_bytes (trailer (self_structure self)))
                (t ++ [Log DEBUG (MsgWritingTo (output_file self));
                       Log DEBUG (MsgBuildingTrailer
                                    (trailer (self_structure self)))])
              = (inl (UnavailableCompression
                        (ImportFailed "zstandard.compress")),
                 t ++ [Log DEBUG (MsgWritingTo (output_file self));
                       Log DEBUG (MsgBuildingTrailer
                                    (trailer (self_structure self)))])).
  { rewrite compress_zstd by reflexivity. rewrite I. reflexivity. }
  assert (W : write self safe_write t
              = (inl (UnavailableCompression
                        (ImportFailed "zstandard.compress")),
                 t ++ [Log DEBUG (MsgWritingTo (output_file self));
                       Log DEBUG (MsgBuildingTrailer
                                    (trailer (self_structure self)))]))
    by (rewrite write_unfold, C; reflexivity).
  split; [exact W|]. rewrite W. cbn [snd].
  rewrite file_events_app. cbn. apply app_nil_r.
Qed.

(** When [write] returns, [compress] has returned some data, the operating
    system has refused nothing that was asked of it, the close included,
    and the file operations are, in this order: open, write of exactly that
    data, flush and fsync with the safe flag, close. *)
Theorem write_returns_after_writing (self : CPIOWriter) (safe_write : bool)
    (t t' : list event) :
  write self safe_write t = (inr tt, t') ->
  exists d t1,
    compress self
      (CPIOArchive_bytes (cpio_entries self)
       ++ CPIOHeader_bytes (trailer (self_structure self)))
      (t ++ [Log DEBUG (MsgWritingTo (output_file self));
             Log DEBUG (MsgBuildingTrailer (trailer (self_structure self)))])
    = (inr d, t1)
    /\ t' = t1 ++ [Opened (output_file self);
                   Written (output_file self) d]
               ++ (if safe_write
                   then [Flushed (output_file self);
                         Fsynced (output_file self)]
                   else [Log WARNING (MsgNotFsynced (output_file self))])
               ++ [Closed (output_file self);
                   Log INFO (MsgWrote (List.length d) (output_file self))]
    /\ io_fails OpOpen = false
    /\ io_fails OpWrite = false
    /\ (if safe_write
        then io_fails OpFlush || io_fails OpFsync else false) = false
    /\ io_fails OpClose = false.
Proof.
  rewrite write_unfold. intros H.
  destruct (compress _ _ _) as [[e|d] t1]; [discriminate H|].
  exists d, t1. split; [reflexivity|].
  unfold bind, with_open, io, log, emit, raise in H.
  destruct (io_fails OpOpen); [discriminate H|].
  destruct (io_fails OpClose);
    [destruct (io_fails OpWrite), safe_write, (io_fails OpFlush),
       (io_fails OpFsync); discriminate H|].
  destruct (io_fails OpWrite); [discriminate H|].
  destruct safe_write.
  - destruct (io_fails OpFlush); [discriminate H|].
    destruct (io_fails OpFsync); [discriminate H|].
    inversion H. rewrite <- !app_assoc. auto.
  - inversion H. rewrite <- !app_assoc. auto.
Qed.

(** When [compress] has returned data, [write] raises [OSError] exactly
    when a request is refused.  A refused open is raised at once.
    Otherwise the body stops at the first request that is refused, in the
    order write, flush, fsync (the last two with the safe flag only), the
    file is closed, and a refused close is raised in place of what the body
    raised.  So without the safe flag a write that is accepted and fails at
    the close raises after the warning is logged, with the file closed and
    no record of success. *)
Theorem write_raises_first_refusal (self : CPIOWriter) (safe_write : bool)
    (t t1 : list event) (d : list byte) :
  compress self
    (CPIOArchive_bytes (cpio_entries self)
     ++ CPIOHeader_bytes (trailer (self_structure self)))
    (t ++ [Log DEBUG (MsgWritingTo (output_file self));
           Log DEBUG (MsgBuildingTrailer (trailer (self_structure self)))])
  = (inr d, t1) ->
  fst (write self safe_write t)
  = (if io_fails OpOpen then inl (OSError OpOpen)
     else if io_fails OpClose then inl (OSError OpClose)
     else match find io_fails
                  (OpWrite
                   :: (if safe_write then [OpFlush; OpFsync] else [])) with
          | Some op => inl (OSError op)
          | None => inr tt
          end)
  /\ (io_fails OpOpen = false -> io_fails OpWrite = false ->
      io_fails OpClose = true ->
      write self false t
      = (inl (OSError OpClose),
         t1 ++ [Opened (output_file self);
                Written (output_file self) d;
                Log WARNING (MsgNotFsynced (output_file self));
                Closed (output_file self)])).
Proof.
  intros H. split.
  - rewrite write_unfold, H.
    unfold bind, with_open, io, log, emit, raise.
    destruct safe_write; cbn [find];
      destruct (io_fails OpOpen); try reflexivity;
      destruct (io_fails OpClose), (io_fails OpWrite), (io_fails OpFlush),
        (io_fails OpFsync); reflexivity.
  - intros O W C. rewrite write_unfold, H.
    unfold bind, with_open, io, log, emit, raise. rewrite O, W, C.
    cbn. rewrite <- !app_assoc. reflexivity.
Qed.

(** A writer with the defaults of the constructor writes the bytes of the
    store and the trailer as they are, flushes, fsyncs and closes. *)
Theorem write_with_defaults (entries0 : CPIOArchive) (output : string)
    (t : list event) :
  (forall op, io_fails op = false) ->
  write (CPIOWriter_init entries0 output None None None None) true t
  = (inr tt,
     t ++ [Log DEBUG (MsgWritingTo output);
           Log DEBUG (MsgBuildingTrailer (trailer HEADER_NEW));
           Log INFO MsgNoCompression;
           Opened output;
           Written output
             (CPIOArchive_bytes entries0
              ++ CPIOHeader_bytes (trailer HEADER_NEW));
           Flushed output;
           Fsynced output;
           Closed output;
           Log INFO
             (MsgWrote
                (List.length
                   (CPIOArchive_bytes entries0
                    ++ CPIOHeader_bytes (trailer HEADER_NEW)))
                output)]).
Proof.
  intros Hio. rewrite write_unfold.
  rewrite compress_no_compression by reflexivity.
  unfold bind, with_open, io, log, emit. rewrite !Hio.
  cbn [output_file cpio_entries self_structure CPIOWriter_init].
  rewrite <- !app_assoc. reflexivity.
Qed.
(** ** The layout of the serialized archive *)

Lemma header_laid_out (h : CPIOHeader) (d : list byte) :
  laid_out h d (CPIOHeader_bytes h ++ d ++ padding (List.length d)).
Proof.
  exists (List.concat (map (to_hex FIELD_WIDTH) (numeric_fields h))),
    (S (pad4 (HEADER_SIZE + N.to_nat (namesize h)))),
    (pad4 (List.length d)).
  assert (Nm : N.to_nat (namesize h) = String.length (name h) + 1)
    by (unfold namesize; rewrite Nat2N.id; reflexivity).
  pose proof (pad4_lt (HEADER_SIZE + N.to_nat (namesize h))) as Pj.
  pose proof (pad4_aligned (HEADER_SIZE + N.to_nat (namesize h))) as Aj.
  split.
  { unfold CPIOHeader_bytes, padding. cbn [repeat].
    rewrite <- !app_assoc. reflexivity. }
  split; [apply fields_length|].
  split.
  { intros B rest.
    change FIELD_COUNT with (List.length (numeric_fields h)).
    apply take_fields_to_hex. exact B. }
  split; [lia|].
  split.
  { replace (HEADER_SIZE + String.length (name h)
             + S (pad4 (HEADER_SIZE + N.to_nat (namesize h))))
      with (HEADER_SIZE + N.to_nat (namesize h)
            + pad4 (HEADER_SIZE + N.to_nat (namesize h))) by lia.
    exact Aj. }
  split; [apply pad4_lt|].
  split; [apply pad4_aligned|].
  intros M B pre rest.
  rewrite <- app_assoc, decode_CPIOHeader_bytes by assumption.
  rewrite header_size_of_bytes by exact M.
  f_equal. f_equal. lia.
Qed.

(** C5: [__bytes__] returns one record for every entry of the store, in
    store order, and after the last of them one record for the trailer,
    which is the header built from the name "TRAILER!!!" alone, with no
    content.  Every record is laid out as [laid_out] has it: the encoded
    header, which reads back field by field, the name and the NUL bytes
    that end it on a 4-byte boundary, then the content and the NUL bytes
    that end it on a 4-byte boundary.  One debug record is logged. *)
Theorem CPIOWriter_bytes_layout (self : CPIOWriter) (t : list event) :
  exists (records : list (list byte)) (trailer_record : list byte),
    CPIOWriter_bytes self t
    = (inr (List.concat records ++ trailer_record),
       t ++ [Log DEBUG (MsgBuildingTrailer (trailer (self_structure self)))])
    /\ Forall2 (fun pe r => laid_out (header (snd pe)) (data (snd pe)) r)
         (entries (cpio_entries self)) records
    /\ laid_out (CPIOHeader_new (self_structure self) "TRAILER!!!" no_fields)
         [] trailer_record.
Proof.
  exists (map (fun pe : string * CPIOData => CPIOData_bytes (snd pe))
            (entries (cpio_entries self))),
    (CPIOHeader_bytes (trailer (self_structure self))).
  split; [reflexivity|]. split.
  - induction (entries (cpio_entries self)) as [|pe r IH]; constructor.
    + apply header_laid_out.
    + exact IH.
  - pose proof (header_laid_out (trailer (self_structure self)) []) as L.
    cbn [List.length app] in L. unfold padding in L.
    change (pad4 0) with 0 in L. cbn [repeat] in L.
    rewrite app_nil_r in L. exact L.
Qed.

End Model.

(** * Examples *)

(** A writer for the scheme "gzip" refuses to write. *)
Lemma write_unsupported_compression_witness :
  supported_scheme
    (compression
       (CPIOWriter_init empty_archive "out.cpio" None (Some (PyStr "gzip"))
          None None)) = false
  /\ (write no_faults nothing_installed sample_compressor
        (CPIOWriter_init empty_archive "out.cpio" None (Some (PyStr "gzip"))
           None None) true []
      = (inl (UnavailableCompression (NotSupported (PyStr "gzip"))),
         [] ++ [Log DEBUG (MsgWritingTo "out.cpio");
                Log DEBUG (MsgBuildingTrailer (trailer HEADER_NEW))])
      /\ file_events
           (snd (write no_faults nothing_installed sample_compressor
                   (CPIOWriter_init empty_archive "out.cpio" None
                      (Some (PyStr "gzip")) None None) true []))
         = file_events []).
Proof.
  split; [reflexivity|].
  apply (write_unsupported_compression no_faults nothing_installed
           sample_compressor
           (CPIOWriter_init empty_archive "out.cpio" None
              (Some (PyStr "gzip")) None None) true []).
  reflexivity.
Defined.

(** An uncompressed archive without entries, written with and without the
    safe flag. *)
Lemma write_durability_witness :
  let self := CPIOWriter_init empty_archive "out.cpio" None None None None in
  exists d t1,
    compress nothing_installed sample_compressor self
      (CPIOArchive_bytes (cpio_entries self)
       ++ CPIOHeader_bytes (trailer (self_structure self)))
      ([] ++ [Log DEBUG (MsgWritingTo (output_file self));
              Log DEBUG (MsgBuildingTrailer (trailer (self_structure self)))])
    = (inr d, t1)
    /\ (forall op, no_faults op = false)
    /\ write no_faults nothing_installed sample_compressor self true []
       = (inr tt,
          t1 ++ [Opened (output_file self);
                 Written (output_file self) d;
                 Flushed (output_file self);
                 Fsynced (output_file self);
                 Closed (output_file self);
                 Log INFO (MsgWrote (List.length d) (output_file self))])
    /\ write no_faults nothing_installed sample_compressor self false []
       = (inr tt,
          t1 ++ [Opened (output_file self);
                 Written (output_file self) d;
                 Log WARNING (MsgNotFsynced (output_file self));
                 Closed (output_file self);
                 Log INFO (MsgWrote (List.length d) (output_file self))]).
Proof.
  intros self.
  exists (CPIOHeader_bytes (trailer HEADER_NEW)).
  exists [Log DEBUG (MsgWritingTo "out.cpio");
          Log DEBUG (MsgBuildingTrailer (trailer HEADER_NEW));
          Log INFO MsgNoCompression].
  assert (C : compress nothing_installed sample_compressor self
                (CPIOArchive_bytes (cpio_entries self)
                 ++ CPIOHeader_bytes (trailer (self_structure self)))
                ([] ++ [Log DEBUG (MsgWritingTo (output_file self));
                        Log DEBUG (MsgBuildingTrailer
                                     (trailer (self_structure self)))])
              = (inr (CPIOHeader_bytes (trailer HEADER_NEW)),
                 [Log DEBUG (MsgWritingTo "out.cpio");
                  Log DEBUG (MsgBuildingTrailer (trailer HEADER_NEW));
                  Log INFO MsgNoCompression])) by reflexivity.
  assert (F : forall op, no_faults op = false) by reflexivity.
  split; [exact C|]. split; [exact F|].
  exact (write_durability no_faults nothing_installed sample_compressor
           self [] C F).
Defined.

(** The string "True" is "true" up to case. *)
Lemma compress_true_raises_AttributeError_witness :
  lower "True" = "true"%string
  /\ (compress nothing_installed sample_compressor
        (CPIOWriter_init empty_archive "out.cpio" None (Some (PyBool true))
           None None) [x61] []
      = (inl (AttributeError "upper"),
         [] ++ [Log DEBUG (MsgCompressingWith "lzma.compress")])
      /\ compress nothing_installed sample_compressor
           (CPIOWriter_init empty_archive "out.cpio" None
              (Some (PyStr "True")) None None) [x61] []
         = (inl (AttributeError "upper"),
            [] ++ [Log DEBUG (MsgCompressingWith "lzma.compress")])).
Proof.
  split; [reflexivity|].
  apply (compress_true_raises_AttributeError nothing_installed
           sample_compressor empty_archive "out.cpio" None None None "True"
           [x61] []).
  reflexivity.
Defined.

(** Three regular files with the content "test". *)
Lemma dedup_bound_witness :
  exists a,
    NoDup (map fst three_files)
    /\ dedup_eligible S_IFREG = true
    /\ (forall pf, In pf three_files ->
                   file_type (a_mode (snd pf)) = file_type S_IFREG)
    /\ append_many ideal_digest empty_archive
         (map (fun pf => (fst pf, snd pf, list_byte_of_string "test"))
              three_files) = inr a
    /\ (List.length (CPIOArchive_bytes a)
        <= List.length three_files * HEADER_SIZE
           + total_name_length (map fst three_files)
           + HEADER_SIZE + List.length (list_byte_of_string "test")
           + name_padding (map fst three_files)
        /\ List.concat (map (fun pe => data (snd pe)) (entries a))
           = match three_files with
             | [] => []
             | _ :: _ => list_byte_of_string "test"
             end
        /\ CPIOArchive_list a = map fst three_files
        /\ List.length (CPIOArchive_bytes a
                        ++ CPIOHeader_bytes (trailer HEADER_NEW))
           = List.length (CPIOArchive_bytes a) + 124).
Proof.
  assert (N3 : NoDup (map fst three_files)).
  { simpl. repeat constructor; simpl; intuition discriminate. }
  assert (T3 : forall pf, In pf three_files ->
                          file_type (a_mode (snd pf)) = file_type S_IFREG).
  { intros pf [<-|[<-|[<-|[]]]]; reflexivity. }
  eexists. split; [exact N3|]. split; [reflexivity|]. split; [exact T3|].
  assert (A : append_many ideal_digest empty_archive
                (map (fun pf => (fst pf, snd pf, list_byte_of_string "test"))
                     three_files)
              = inr (match append_many ideal_digest empty_archive
                             (map (fun pf => (fst pf, snd pf,
                                              list_byte_of_string "test"))
                                  three_files) with
                     | inr a => a
                     | inl _ => empty_archive
                     end)) by (vm_compute; reflexivity).
  split; [exact A|].
  exact (dedup_bound ideal_digest three_files (list_byte_of_string "test")
           S_IFREG N3 eq_refl T3 A).
Defined.

(** C3 as stated fails for symbolic links: eleven links to "/bin/busybox"
    at distinct paths all keep their 12 bytes of content, and the bytes of
    the store exceed the bound.  It fails for the archive as written, too:
    three regular files of one content are stored within the bound, and
    exceed it with the trailer. *)
Lemma dedup_bound_fails_for_symlinks :
  exists a,
    append_many ideal_digest empty_archive
      (map (fun pf => (fst pf, snd pf, test_content)) three_files)
    = inr linked_files
    /\ List.length three_files * HEADER_SIZE
       + total_name_length (map fst three_files)
       + HEADER_SIZE + List.length test_content
       + name_padding (map fst three_files)
       < List.length (CPIOArchive_bytes linked_files
                      ++ CPIOHeader_bytes (trailer HEADER_NEW))
    /\ NoDup (map fst eleven_links)
    /\ append_many ideal_digest empty_archive
         (map (fun pf => (fst pf, snd pf, list_byte_of_string "/bin/busybox"))
              eleven_links) = inr a
    /\ Forall (fun pe => data (snd pe) = list_byte_of_string "/bin/busybox")
              (entries a)
    /\ List.length eleven_links * HEADER_SIZE
       + total_name_length (map fst eleven_links)
       + HEADER_SIZE + List.length (list_byte_of_string "/bin/busybox")
       + name_padding (map fst eleven_links)
       < List.length (CPIOArchive_bytes a).
Proof.
  eexists. split; [vm_compute; reflexivity|].
  split; [vm_compute; lia|].
  split; [|split; [vm_compute; reflexivity|split]].
  - simpl. repeat constructor; simpl; intuition discriminate.
  - repeat constructor.
  - vm_compute. lia.
Qed.

(** The sample store is what [append] builds. *)
Example linked_files_built :
  append_many ideal_digest empty_archive
    (map (fun pf => (fst pf, snd pf, test_content)) three_files)
  = inr linked_files.
Proof. vm_compute. reflexivity. Qed.


Example append_twice_sample :
  exists a1 e1 a2 e2,
    append ideal_digest empty_archive "etc/a" regular_file test_content
    = inr (a1, e1)
    /\ append ideal_digest a1 "etc/a" regular_file test_content
       = inr (a2, e2)
    /\ CPIOArchive_list a2 = ["etc/a"%string]
    /\ List.length (entries a2) = 1.
Proof.
  do 4 eexists. split; [reflexivity|]. split; [reflexivity|].
  split; reflexivity.
Qed.

(** * The command line program *)

Ltac run_main :=
  unfold main, when, invoke, print, throw, skip; cbn;
  repeat match goal with
         | |- context [if ?b then _ else _] => destruct b eqn:?; cbn
         end.

(** A run of [main] goes through its stages in order: it constructs the
    archive, reads the input, changes the archive, writes the output, and
    lists and prints last, whatever is given and whichever call raises. *)
Theorem main_stages_in_order (raises : method -> bool) (args : Args) :
  nondecreasing (map stage (snd (main raises args []))) = true.
Proof. run_main; reflexivity. Qed.

(** When [main] ends in a [ValueError] (a symbolic link without a name, a
    character device without its numbers), it has written no output file
    and has printed nothing. *)
Theorem main_argument_error_writes_nothing (raises : method -> bool)
    (args : Args) (message : string) :
  fst (main raises args []) = inl (ValueError message) ->
  existsb is_write (snd (main raises args [])) = false
  /\ existsb is_print (snd (main raises args [])) = false.
Proof.
  run_main; intros H; try discriminate H; split; reflexivity.
Qed.

Lemma main_argument_error_writes_nothing_witness :
  fst (main never_raises unnamed_symlink_args [])
  = inl (ValueError "Symlink requires a name")
  /\ existsb is_write (snd (main never_raises unnamed_symlink_args []))
     = false
  /\ existsb is_print (snd (main never_raises unnamed_symlink_args []))
     = false.
Proof.
  split; [reflexivity|].
  apply (@main_argument_error_writes_nothing never_raises
           unnamed_symlink_args "Symlink requires a name"%string).
  reflexivity.
Defined.

(** A call that raises ends [main]: it is the last thing that [main] did. *)
Theorem main_stops_at_raising_call (raises : method -> bool) (args : Args)
    (m : method) :
  fst (main raises args []) = inl (MethodRaised m) ->
  last (snd (main raises args [])) (Printed m) = Called m.
Proof.
  run_main; intros H; try discriminate H; inversion H; reflexivity.
Qed.

Lemma main_stops_at_raising_call_witness :
  fst (main read_raises tty_args [])
  = inl (MethodRaised (read_cpio_file "in.cpio"))
  /\ last (snd (main read_raises tty_args []))
          (Printed (read_cpio_file "in.cpio"))
     = Called (read_cpio_file "in.cpio").
Proof.
  split; [reflexivity|].
  apply (@main_stops_at_raising_call read_raises tty_args
           (read_cpio_file "in.cpio")).
  reflexivity.
Defined.

(** A character device is refused when its major or its minor number is
    0, as when the number is not given: [main] raises [ValueError] after
    the input was read and before anything is added or written. *)
Theorem main_chardev_refuses_zero (raises : method -> bool) (args : Args) :
  (forall m, raises m = false) ->
  truthy (py_text (arg_chardev args)) = true ->
  truthy (py_number (arg_major args))
  && truthy (py_number (arg_minor args)) = false ->
  negb (truthy (py_text (arg_symlink args)))
  || truthy (py_text (arg_name args)) = true ->
  fst (main raises args [])
  = inl (ValueError "Character device requires major and minor numbers")
  /\ existsb is_write (snd (main raises args [])) = false.
Proof.
  intros R C N S. unfold main, when, invoke, print, throw, skip.
  rewrite !R, C. cbn.
  destruct (truthy (py_text (arg_symlink args)));
    cbn in S; rewrite ?S; cbn;
    destruct (truthy (py_number (arg_major args)));
    destruct (truthy (py_number (arg_minor args)));
    try discriminate N; cbn;
    destruct (truthy (py_text (arg_input args)));
    destruct (truthy (py_text (arg_rm args))); cbn; split; reflexivity.
Qed.

Lemma main_chardev_refuses_zero_witness :
  (forall m, never_raises m = false)
  /\ truthy (py_text (arg_chardev tty_args)) = true
  /\ truthy (py_number (arg_major tty_args))
     && truthy (py_number (arg_minor tty_args)) = false
  /\ negb (truthy (py_text (arg_symlink tty_args)))
     || truthy (py_text (arg_name tty_args)) = true
  /\ fst (main never_raises tty_args [])
     = inl (ValueError "Character device requires major and minor numbers")
  /\ existsb is_write (snd (main never_raises tty_args [])) = false.
Proof.
  assert (R : forall m, never_raises m = false) by reflexivity.
  split; [exact R|]. split; [reflexivity|]. split; [reflexivity|].
  split; [reflexivity|].
  exact (@main_chardev_refuses_zero never_raises tty_args R
           eq_refl eq_refl eq_refl).
Defined.

(** A symbolic link needs a name: with [--symlink] and no name, or an
    empty one, [main] raises [ValueError] after reading the input and
    removing what [--rm] names, and adds nothing. *)
Theorem main_symlink_requires_name (raises : method -> bool) (args : Args) :
  (forall m, raises m = false) ->
  truthy (py_text (arg_symlink args)) = true ->
  truthy (py_text (arg_name args)) = false ->
  main raises args []
  = (inl (ValueError "Symlink requires a name"),
     [Called (PyCPIO_init args)]
     ++ (if truthy (py_text (arg_input args))
         then [Called (read_cpio_file (text (arg_input args)))] else [])
     ++ (if truthy (py_text (arg_rm args))
         then [Called (remove_cpio (text (arg_rm args)))] else [])).
Proof.
  intros R S N. unfold main, when, invoke, print, throw, skip.
  rewrite !R, S, N. cbn.
  destruct (truthy (py_text (arg_input args)));
    destruct (truthy (py_text (arg_rm args))); reflexivity.
Qed.

Lemma main_symlink_requires_name_witness :
  (forall m, never_raises m = false)
  /\ truthy (py_text (arg_symlink unnamed_symlink_args)) = true
  /\ truthy (py_text (arg_name unnamed_symlink_args)) = false
  /\ main never_raises unnamed_symlink_args []
     = (inl (ValueError "Symlink requires a name"),
        [Called (PyCPIO_init unnamed_symlink_args)]
        ++ (if truthy (py_text (arg_input unnamed_symlink_args))
            then [Called (read_cpio_file
                            (text (arg_input unnamed_symlink_args)))]
            else [])
        ++ (if truthy (py_text (arg_rm unnamed_symlink_args))
            then [Called (remove_cpio (text (arg_rm unnamed_symlink_args)))]
            else [])).
Proof.
  assert (R : forall m, never_raises m = false) by reflexivity.
  split; [exact R|]. split; [reflexivity|]. split; [reflexivity|].
  exact (@main_symlink_requires_name never_raises unnamed_symlink_args R
           eq_refl eq_refl).
Defined.

(** Without an option that asks for an action, [main] only constructs
    the archive: [--recursive], [--relative], [--absolute], [--name],
    [--major] and [--minor] do nothing on their own. *)
Theorem main_without_action (raises : method -> bool) (args : Args) :
  truthy (py_text (arg_input args)) = false ->
  truthy (py_text (arg_rm args)) = false ->
  truthy (py_text (arg_symlink args)) = false ->
  truthy (py_text (arg_chardev args)) = false ->
  truthy (py_text (arg_append args)) = false ->
  truthy (py_text (arg_output args)) = false ->
  arg_list args = false ->
  arg_print args = false ->
  snd (main raises args []) = [Called (PyCPIO_init args)].
Proof.
  intros I R S C A O L P. unfold main, when, invoke, print, throw, skip.
  rewrite I, R, S, C, A, O, L, P. cbn.
  destruct (raises (PyCPIO_init args)); reflexivity.
Qed.

Lemma main_without_action_witness :
  truthy (py_text (arg_input qualifiers_only_args)) = false
  /\ truthy (py_text (arg_rm qualifiers_only_args)) = false
  /\ truthy (py_text (arg_symlink qualifiers_only_args)) = false
  /\ truthy (py_text (arg_chardev qualifiers_only_args)) = false
  /\ truthy (py_text (arg_append qualifiers_only_args)) = false
  /\ truthy (py_text (arg_output qualifiers_only_args)) = false
  /\ arg_list qualifiers_only_args = false
  /\ arg_print qualifiers_only_args = false
  /\ snd (main never_raises qualifiers_only_args [])
     = [Called (PyCPIO_init qualifiers_only_args)].
Proof.
  repeat (split; [reflexivity|]).
  exact (@main_without_action never_raises qualifiers_only_args
           eq_refl eq_refl eq_refl eq_refl eq_refl eq_refl eq_refl eq_refl).
Defined.

(** With [--append], and when nothing before it fails, [main] makes one
    append call: [append_recursive] with [--recursive] and [append_cpio]
    without.  It passes the path, the relative base unless that is empty,
    and the name and the absolute flag only when they are set. *)
Theorem main_append_call (raises : method -> bool) (args : Args) :
  (forall m, raises m = false) ->
  truthy (py_text (arg_append args)) = true ->
  negb (truthy (py_text (arg_symlink args)))
  || truthy (py_text (arg_name args)) = true ->
  negb (truthy (py_text (arg_chardev args)))
  || (truthy (py_number (arg_major args))
      && truthy (py_number (arg_minor args))) = true ->
  let cmdargs :=
    {| cmd_relative := if truthy (py_text (arg_relative args))
                       then arg_relative args else None;
       cmd_path := text (arg_append args);
       cmd_name := if truthy (py_text (arg_name args))
                   then arg_name args else None;
       cmd_absolute := if arg_absolute args then Some true else None |} in
  fst (main raises args []) = inr tt
  /\ filter is_append (snd (main raises args []))
     = [Called (if arg_recursive args
                then append_recursive cmdargs else append_cpio cmdargs)].
Proof.
  intros R A S C cmdargs. subst cmdargs.
  unfold main, when, invoke, print, throw, skip.
  rewrite !R, A. cbn.
  destruct (truthy (py_text (arg_symlink args)));
    cbn in S; rewrite ?S; cbn;
    destruct (truthy (py_text (arg_chardev args)));
    destruct (truthy (py_number (arg_major args)));
    destruct (truthy (py_number (arg_minor args)));
    try discriminate C; cbn;
    destruct (truthy (py_text (arg_input args)));
    destruct (truthy (py_text (arg_rm args)));
    destruct (arg_recursive args);
    destruct (truthy (py_text (arg_output args)));
    destruct (arg_list args); destruct (arg_print args);
    cbn; split; reflexivity.
Qed.

Lemma main_append_call_witness :
  (forall m, never_raises m = false)
  /\ truthy (py_text (arg_append append_args)) = true
  /\ negb (truthy (py_text (arg_symlink append_args)))
     || truthy (py_text (arg_name append_args)) = true
  /\ negb (truthy (py_text (arg_chardev append_args)))
     || (truthy (py_number (arg_major append_args))
         && truthy (py_number (arg_minor append_args))) = true
  /\ fst (main never_raises append_args []) = inr tt
  /\ filter is_append (snd (main never_raises append_args []))
     = [Called
          (if arg_recursive append_args
           then append_recursive
                  {| cmd_relative :=
                       if truthy (py_text (arg_relative append_args))
                       then arg_relative append_args else None;
                     cmd_path := text (arg_append append_args);
                     cmd_name :=
                       if truthy (py_text (arg_name append_args))
                       then arg_name append_args else None;
                     cmd_absolute :=
                       if arg_absolute append_args
                       then Some true else None |}
           else append_cpio
                  {| cmd_relative :=
                       if truthy (py_text (arg_relative append_args))
                       then arg_relative append_args else None;
                     cmd_path := text (arg_append append_args);
                     cmd_name :=
                       if truthy (py_text (arg_name append_args))
                       then arg_name append_args else None;
                     cmd_absolute :=
                       if arg_absolute append_args
                       then Some true else None |})].
Proof.
  assert (R : forall m, never_raises m = false) by reflexivity.
  split; [exact R|]. split; [reflexivity|]. split; [reflexivity|].
  split; [reflexivity|].
  exact (@main_append_call never_raises append_args R
           eq_refl eq_refl eq_refl).
Defined.

(** * Examples for the writer *)

(** The empty string, and 0, as compression. *)
Lemma compress_falsy_scheme_witness :
  truthy (PyStr "") = false
  /\ compress nothing_installed sample_compressor
       (CPIOWriter_init empty_archive "out.cpio" None (Some (PyStr ""))
          None None) [x61] []
     = (if isinstance_str (PyStr "")
        then (inl (UnavailableCompression (NotSupported (PyStr ""))), [])
        else (inr [x61], [] ++ [Log INFO MsgNoCompression])).
Proof.
  split; [reflexivity|].
  exact (@compress_falsy_scheme nothing_installed sample_compressor
           empty_archive "out.cpio" None None None (PyStr "") [x61] []
           eq_refl).
Defined.

(** "zstd" at the level 0 runs at the level 10. *)
Lemma compress_zstd_level_witness :
  zstandard_installed "zstandard" = true
  /\ compress zstandard_installed sample_compressor
       (CPIOWriter_init empty_archive "out.cpio" None (Some (PyStr "zstd"))
          (Some (PyInt 0)) None) [x61] []
     = (sample_compressor "zstandard" "compress" [x61]
          [if truthy (keyword (PyInt 10) (Some (PyInt 0)))
           then keyword (PyInt 10) (Some (PyInt 0)) else PyInt 10] [],
        [] ++ [Log DEBUG (MsgCompressingWith "zstandard.compress");
               Log INFO (MsgCompressing "ZSTD" (List.length [x61]))]).
Proof.
  split; [reflexivity|].
  exact (@compress_zstd_level zstandard_installed sample_compressor
           empty_archive "out.cpio" None (Some (PyInt 0)) None [x61] []
           eq_refl).
Defined.

(** A writer for [True]: [compress] raises, and so does [write]. *)
Lemma write_raises_what_compress_raises_witness :
  let self :=
    CPIOWriter_init empty_archive "out.cpio" None (Some (PyBool true))
      None None in
  let t1 := [Log DEBUG (MsgWritingTo "out.cpio");
             Log DEBUG (MsgBuildingTrailer (trailer HEADER_NEW));
             Log DEBUG (MsgCompressingWith "lzma.compress")] in
  compress nothing_installed sample_compressor self
    (CPIOArchive_bytes (cpio_entries self)
     ++ CPIOHeader_bytes (trailer (self_structure self)))
    ([] ++ [Log DEBUG (MsgWritingTo (output_file self));
            Log DEBUG (MsgBuildingTrailer (trailer (self_structure self)))])
  = (inl (AttributeError "upper"), t1)
  /\ write no_faults nothing_installed sample_compressor self true []
     = (inl (AttributeError "upper"), t1)
  /\ file_events t1 = file_events [].
Proof.
  intros self t1.
  assert (C : compress nothing_installed sample_compressor self
                (CPIOArchive_bytes (cpio_entries self)
                 ++ CPIOHeader_bytes (trailer (self_structure self)))
                ([] ++ [Log DEBUG (MsgWritingTo (output_file self));
                        Log DEBUG (MsgBuildingTrailer
                                     (trailer (self_structure self)))])
              = (inl (AttributeError "upper"), t1)) by reflexivity.
  split; [exact C|].
  exact (@write_raises_what_compress_raises no_faults nothing_installed
           sample_compressor self true [] t1 (AttributeError "upper") C).
Defined.

(** "zstd" without the module. *)
Lemma write_zstd_not_installed_witness :
  let self :=
    CPIOWriter_init empty_archive "out.cpio" None (Some (PyStr "zstd"))
      None None in
  nothing_installed "zstandard" = false
  /\ write no_faults nothing_installed sample_compressor self true []
     = (inl (UnavailableCompression (ImportFailed "zstandard.compress")),
        [] ++ [Log DEBUG (MsgWritingTo "out.cpio");
               Log DEBUG (MsgBuildingTrailer
                            (trailer (self_structure self)))])
  /\ file_events
       (snd (write no_faults nothing_installed sample_compressor self true
               []))
     = file_events [].
Proof.
  intros self. split; [reflexivity|].
  exact (@write_zstd_not_installed no_faults nothing_installed
           sample_compressor empty_archive "out.cpio" None None None true []
           eq_refl).
Defined.

(** A write that returns: "xz" through the stand-in compressor. *)
Lemma write_returns_after_writing_witness :
  let self :=
    CPIOWriter_init empty_archive "out.cpio" None (Some (PyStr "xz"))
      None None in
  exists t',
    write no_faults nothing_installed sample_compressor self true []
    = (inr tt, t')
    /\ exists d t1,
         compress nothing_installed sample_compressor self
           (CPIOArchive_bytes (cpio_entries self)
            ++ CPIOHeader_bytes (trailer (self_structure self)))
           ([] ++ [Log DEBUG (MsgWritingTo (output_file self));
                   Log DEBUG (MsgBuildingTrailer
                                (trailer (self_structure self)))])
         = (inr d, t1)
         /\ t' = t1 ++ [Opened (output_file self);
                        Written (output_file self) d]
                    ++ (if true
                        then [Flushed (output_file self);
                              Fsynced (output_file self)]
                        else [Log WARNING
                                (MsgNotFsynced (output_file self))])
                    ++ [Closed (output_file self);
                        Log INFO
                          (MsgWrote (List.length d) (output_file self))]
         /\ no_faults OpOpen = false
         /\ no_faults OpWrite = false
         /\ (if true then no_faults OpFlush || no_faults OpFsync else false)
            = false
         /\ no_faults OpClose = false.
Proof.
  intros self.
  assert (W : write no_faults nothing_installed sample_compressor self true
                []
              = (inr tt,
                 snd (write no_faults nothing_installed sample_compressor
                        self true []))) by reflexivity.
  eexists. split; [exact W|].
  exact (@write_returns_after_writing no_faults nothing_installed
           sample_compressor self true [] _ W).
Defined.

(** A device that accepts the write and refuses at the close, without the
    safe flag. *)
Lemma write_raises_first_refusal_witness :
  let self := CPIOWriter_init empty_archive "out.cpio" None None None None in
  exists d t1,
    compress nothing_installed sample_compressor self
      (CPIOArchive_bytes (cpio_entries self)
       ++ CPIOHeader_bytes (trailer (self_structure self)))
      ([] ++ [Log DEBUG (MsgWritingTo (output_file self));
              Log DEBUG (MsgBuildingTrailer (trailer (self_structure self)))])
    = (inr d, t1)
    /\ fst (write close_refused nothing_installed sample_compressor self
              false [])
       = (if close_refused OpOpen then inl (OSError OpOpen)
          else if close_refused OpClose then inl (OSError OpClose)
          else match find close_refused
                       (OpWrite
                        :: (if false then [OpFlush; OpFsync] else [])) with
               | Some op => inl (OSError op)
               | None => inr tt
               end)
    /\ write close_refused nothing_installed sample_compressor self false []
       = (inl (OSError OpClose),
          t1 ++ [Opened (output_file self);
                 Written (output_file self) d;
                 Log WARNING (MsgNotFsynced (output_file self));
                 Closed (output_file self)]).
Proof.
  intros self.
  assert (C : compress nothing_installed sample_compressor self
                (CPIOArchive_bytes (cpio_entries self)
                 ++ CPIOHeader_bytes (trailer (self_structure self)))
                ([] ++ [Log DEBUG (MsgWritingTo (output_file self));
                        Log DEBUG (MsgBuildingTrailer
                                     (trailer (self_structure self)))])
              = (inr (CPIOHeader_bytes (trailer HEADER_NEW)),
                 [Log DEBUG (MsgWritingTo "out.cpio");
                  Log DEBUG (MsgBuildingTrailer (trailer HEADER_NEW));
                  Log INFO MsgNoCompression])) by reflexivity.
  eexists. eexists. split; [exact C|].
  split.
  - exact (proj1 (@write_raises_first_refusal close_refused
                    nothing_installed sample_compressor self false [] _ _ C)).
  - exact (proj2 (@write_raises_first_refusal close_refused
                    nothing_installed sample_compressor self false [] _ _ C)
             eq_refl eq_refl eq_refl).
Defined.

(** The three linked files, written with the defaults. *)
Lemma write_with_defaults_witness :
  (forall op, no_faults op = false)
  /\ write no_faults nothing_installed sample_compressor
       (CPIOWriter_init linked_files "out.cpio" None None None None) true []
     = (inr tt,
        [] ++ [Log DEBUG (MsgWritingTo "out.cpio");
               Log DEBUG (MsgBuildingTrailer (trailer HEADER_NEW));
               Log INFO MsgNoCompression;
               Opened "out.cpio";
               Written "out.cpio"
                 (CPIOArchive_bytes linked_files
                  ++ CPIOHeader_bytes (trailer HEADER_NEW));
               Flushed "out.cpio";
               Fsynced "out.cpio";
               Closed "out.cpio";
               Log INFO
                 (MsgWrote
                    (List.length
                       (CPIOArchive_bytes linked_files
                        ++ CPIOHeader_bytes (trailer HEADER_NEW)))
                    "out.cpio")]).
Proof.
  assert (F : forall op, no_faults op = false) by reflexivity.
  split; [exact F|].
  exact (@write_with_defaults no_faults nothing_installed sample_compressor
           linked_files "out.cpio" [] F).
Defined.
